(** * iot4agri sensor frontend: latest-reading page and charts page

    A shallow embedding of the two client pages of the biodigester
    dashboard:

    - [app/page.tsx] (component [Home]): the live view that keeps one
      "latest reading" fresh through a realtime subscription and a
      12-second polling interval;
    - the charts page (component [ChartsPage] with its helper
      [SensorChart]): normalisation of the stored rows into chart points,
      per-chart filtering, automatic Y-axis scaling and alarm zones.

    JavaScript numbers are IEEE 754 binary64 values; they are modelled by
    the Standard Library's [spec_float] at precision 53 and maximal
    exponent 1024, whose operations are ordinary functions that compute. *)

From Stdlib Require Import ZArith List String Bool Lia Sorted.
From Stdlib Require Import SpecFloat PrimFloat FloatOps.
Import ListNotations.

Set Implicit Arguments.
Open Scope string_scope.
Open Scope list_scope.

(* ================================================================== *)
(** * Part I -- definitions *)
(* ================================================================== *)

(** ** JavaScript numbers *)

Definition number : Type := spec_float.

Module Num.

Definition prec : Z := 53.
Definition emax : Z := 1024.

(** An integer literal such as [30] or [14]. *)
Definition ofZ (z : Z) : number := binary_normalize prec emax z 0 false.

Definition NaN : number := S754_nan.
Definition Infinity : number := S754_infinity false.
Definition NegInfinity : number := S754_infinity true.

(** The literal [0.1]: the binary64 value nearest to one tenth,
    0x1.999999999999ap-4. *)
Definition tenth : number := S754_finite false 7205759403792794 (-56).

Definition add : number -> number -> number := SFadd prec emax.
Definition sub : number -> number -> number := SFsub prec emax.
Definition mul : number -> number -> number := SFmul prec emax.
Definition div : number -> number -> number := SFdiv prec emax.

(** [x < y], [x <= y] and [x == y] on numbers; all three are false as
    soon as one side is NaN, and the two zeros compare equal. *)
Definition ltb : number -> number -> bool := SFltb.
Definition leb : number -> number -> bool := SFleb.
Definition eqb : number -> number -> bool := SFeqb.

Definition isNaN (x : number) : bool :=
  match x with S754_nan => true | _ => false end.

Definition isPosZero (x : number) : bool :=
  match x with S754_zero false => true | _ => false end.

Definition isNegZero (x : number) : bool :=
  match x with S754_zero true => true | _ => false end.

(** A number that is neither NaN nor an infinity. *)
Definition isFinite (x : number) : bool :=
  match x with S754_zero _ | S754_finite _ _ _ => true | _ => false end.

(** [Math.min(...values)]: start from [+Infinity]; a NaN argument makes
    the result NaN; [-0] is taken to be below [+0]. *)
Fixpoint min_loop (lowest : number) (values : list number) : number :=
  match values with
  | [] => lowest
  | n :: rest =>
      if isNaN n then NaN
      else
        let lowest1 := if isNegZero n && isPosZero lowest then n else lowest in
        let lowest2 := if ltb n lowest1 then n else lowest1 in
        min_loop lowest2 rest
  end.

Definition Math_min (values : list number) : number :=
  min_loop Infinity values.

(** [Math.max(...values)]: start from [-Infinity]; [+0] is taken to be
    above [-0]. *)
Fixpoint max_loop (highest : number) (values : list number) : number :=
  match values with
  | [] => highest
  | n :: rest =>
      if isNaN n then NaN
      else
        let highest1 := if isPosZero n && isNegZero highest then n else highest in
        let highest2 := if ltb highest1 n then n else highest1 in
        max_loop highest2 rest
  end.

Definition Math_max (values : list number) : number :=
  max_loop NegInfinity values.

End Num.

(** ** JavaScript values read through a computed property name *)

(** What [point[key]] can evaluate to on a chart point: [undefined], a
    number or a string. *)
Inductive jsval : Type :=
| JUndefined
| JNumber (n : number)
| JString (s : string).

(** [v !== undefined] *)
Definition isDefined (v : jsval) : bool :=
  match v with JUndefined => false | _ => true end.

(** A column of a row as it arrives from the data source. The declared
    type is [T | null]; a column that is not in the row at all reads as
    [undefined]. *)
Inductive nullable (A : Type) : Type :=
| Null
| Missing
| Val (a : A).

Arguments Null {A}.
Arguments Missing {A}.
Arguments Val {A} a.

(** [x ?? undefined]: [null] and [undefined] both give [undefined]
    (here [None]); every other value is kept as it is. *)
Definition orUndefined {A : Type} (x : nullable A) : option A :=
  match x with
  | Val a => Some a
  | Null | Missing => None
  end.

(** ** type SensorData (both pages declare the same type) *)

Module SensorData.

Record t : Type := Build {
  timestamp : string;
  ph : nullable number;
  ph_voltage : nullable number;
  temp1 : nullable number;
  temp2 : nullable number;
  bme_temperature : nullable number;
  bme_humidity : nullable number;
  bme_pressure : nullable number;
  bme_gas_resistance : nullable number;
  methan_raw : nullable (list string);
  methane_ppm : nullable number;
  methane_percent : nullable number;
  methane_temperature : nullable number;
  methane_faults : nullable (list string)
}.

End SensorData.

(** ** type ChartDataPoint *)

Module ChartDataPoint.

(** An optional property ([ph?: number]) is [None] when it reads as
    [undefined]. *)
Record t : Type := Build {
  timestamp : string;
  date : string;
  ph : option number;
  ph_voltage : option number;
  temp1 : option number;
  temp2 : option number;
  bme_temperature : option number;
  bme_humidity : option number;
  bme_pressure : option number;
  bme_gas_resistance : option number;
  methane_ppm : option number;
  methane_percent : option number;
  methane_temperature : option number
}.

Definition ofOption (o : option number) : jsval :=
  match o with
  | Some n => JNumber n
  | None => JUndefined
  end.

(** [point[key as keyof ChartDataPoint]]: the keys are the property
    names of the type; any other name reads as [undefined] (members
    inherited from [Object.prototype] are left out). *)
Definition get (point : t) (key : string) : jsval :=
  if String.eqb key "timestamp" then JString (timestamp point)
  else if String.eqb key "date" then JString (date point)
  else if String.eqb key "ph" then ofOption (ph point)
  else if String.eqb key "ph_voltage" then ofOption (ph_voltage point)
  else if String.eqb key "temp1" then ofOption (temp1 point)
  else if String.eqb key "temp2" then ofOption (temp2 point)
  else if String.eqb key "bme_temperature" then ofOption (bme_temperature point)
  else if String.eqb key "bme_humidity" then ofOption (bme_humidity point)
  else if String.eqb key "bme_pressure" then ofOption (bme_pressure point)
  else if String.eqb key "bme_gas_resistance" then ofOption (bme_gas_resistance point)
  else if String.eqb key "methane_ppm" then ofOption (methane_ppm point)
  else if String.eqb key "methane_percent" then ofOption (methane_percent point)
  else if String.eqb key "methane_temperature" then ofOption (methane_temperature point)
  else JUndefined.

End ChartDataPoint.

(** ** type AlarmZone and the ALARM_ZONES table *)

Module AlarmZone.

Record t : Type := Build {
  min : number;
  max : number;
  label : string;
  color : string
}.

End AlarmZone.

Module ALARM_ZONES.

Import Num.

Definition tank_temperature : list AlarmZone.t :=
  [ AlarmZone.Build (ofZ 0) (ofZ 30) "Too cold (<30°C)" "#3b82f6";
    AlarmZone.Build (ofZ 30) (ofZ 40) "Optimal (30-40°C)" "#22c55e";
    AlarmZone.Build (ofZ 40) (ofZ 80) "Too hot (>40°C)" "#ef4444" ].

Definition ph : list AlarmZone.t :=
  [ AlarmZone.Build (ofZ 0) (ofZ 6) "Too acidic (<6)" "#ef4444";
    AlarmZone.Build (ofZ 6) (ofZ 8) "Optimal (6-8)" "#22c55e";
    AlarmZone.Build (ofZ 8) (ofZ 14) "Too alkaline (>8)" "#ef4444" ].

End ALARM_ZONES.

(** ** The charts page *)

Module Charts.

Import Num.

(** *** Transform data for charts (the [data.map] of [ChartsPage]) *)

Section Locale.

(** [new Date(ts).toLocaleString('en-US', {...})] and
    [new Date(ts).toLocaleDateString('en-US')] belong to the host; the
    page only passes their results on. *)
Variable toLocaleString : string -> string.
Variable toLocaleDateString : string -> string.

Definition formatTimestamp (timestamp : string) : string :=
  toLocaleString timestamp.

Definition chartPoint (point : SensorData.t) : ChartDataPoint.t :=
  {| ChartDataPoint.timestamp := formatTimestamp (SensorData.timestamp point);
     ChartDataPoint.date := toLocaleDateString (SensorData.timestamp point);
     ChartDataPoint.ph := orUndefined (SensorData.ph point);
     ChartDataPoint.ph_voltage := orUndefined (SensorData.ph_voltage point);
     ChartDataPoint.temp1 := orUndefined (SensorData.temp1 point);
     ChartDataPoint.temp2 := orUndefined (SensorData.temp2 point);
     ChartDataPoint.bme_temperature := orUndefined (SensorData.bme_temperature point);
     ChartDataPoint.bme_humidity := orUndefined (SensorData.bme_humidity point);
     ChartDataPoint.bme_pressure := orUndefined (SensorData.bme_pressure point);
     ChartDataPoint.bme_gas_resistance := orUndefined (SensorData.bme_gas_resistance point);
     ChartDataPoint.methane_ppm := orUndefined (SensorData.methane_ppm point);
     ChartDataPoint.methane_percent := orUndefined (SensorData.methane_percent point);
     ChartDataPoint.methane_temperature := orUndefined (SensorData.methane_temperature point) |}.

Definition chartData (data : list SensorData.t) : list ChartDataPoint.t :=
  map chartPoint data.

End Locale.

(** The eleven numeric channels, each as the pair of the column read on
    the row and the property written on the chart point. *)
Definition channels
  : list ((SensorData.t -> nullable number) * (ChartDataPoint.t -> option number)) :=
  [ (SensorData.ph, ChartDataPoint.ph);
    (SensorData.ph_voltage, ChartDataPoint.ph_voltage);
    (SensorData.temp1, ChartDataPoint.temp1);
    (SensorData.temp2, ChartDataPoint.temp2);
    (SensorData.bme_temperature, ChartDataPoint.bme_temperature);
    (SensorData.bme_humidity, ChartDataPoint.bme_humidity);
    (SensorData.bme_pressure, ChartDataPoint.bme_pressure);
    (SensorData.bme_gas_resistance, ChartDataPoint.bme_gas_resistance);
    (SensorData.methane_ppm, ChartDataPoint.methane_ppm);
    (SensorData.methane_percent, ChartDataPoint.methane_percent);
    (SensorData.methane_temperature, ChartDataPoint.methane_temperature) ].

(** *** SensorChart *)

Record SeriesConfig : Type := {
  label : string;
  color : string
}.

Definition ChartConfig : Type := list (string * SeriesConfig).

Fixpoint lookup (config : ChartConfig) (key : string) : option SeriesConfig :=
  match config with
  | [] => None
  | (k, c) :: rest => if String.eqb k key then Some c else lookup rest key
  end.

Record Props : Type := {
  title : string;
  description : string;
  data : list ChartDataPoint.t;
  dataKeys : list string;
  config : ChartConfig;
  domain : option (number * number);
  autoScale : option bool;
  alarmZones : option (list AlarmZone.t)
}.

(** Filter data that has at least one value for the desired keys:
    [dataKeys.some(key => point[key] !== undefined)]. *)
Definition hasValue (dataKeys : list string) (point : ChartDataPoint.t) : bool :=
  existsb (fun key => isDefined (ChartDataPoint.get point key)) dataKeys.

Definition filteredData (data : list ChartDataPoint.t) (dataKeys : list string)
  : list ChartDataPoint.t :=
  filter (hasValue dataKeys) data.

(** The body of the inner [forEach]: push the value when
    [typeof value === 'number' && !isNaN(value)]. *)
Definition pushValue (key : string) (allValues : list number)
  (point : ChartDataPoint.t) : list number :=
  match ChartDataPoint.get point key with
  | JNumber value => if negb (isNaN value) then allValues ++ [value] else allValues
  | _ => allValues
  end.

(** The two nested [forEach] loops, keys outside and points inside,
    growing [allValues] from the empty array. *)
Definition collectValues (dataKeys : list string)
  (points : list ChartDataPoint.t) : list number :=
  fold_left (fun allValues key => fold_left (pushValue key) points allValues)
            dataKeys [].

(** [[min - padding, max + padding]] for a non-empty [allValues]. *)
Definition paddedDomain (allValues : list number) : number * number :=
  let min := Math_min allValues in
  let max := Math_max allValues in
  let range := sub max min in
  let padding := mul range tenth in
  (sub min padding, add max padding).

(** An optional flag ([autoScale?: boolean]) is falsy when left out. *)
Definition truthy (flag : option bool) : bool :=
  match flag with Some b => b | None => false end.

(** The Y-axis domain handed to the axis: it starts as the [domain]
    property and is replaced only inside the auto-scale branch. *)
Definition yAxisDomain (domain : option (number * number)) (autoScale : option bool)
  (dataKeys : list string) (points : list ChartDataPoint.t)
  : option (number * number) :=
  if truthy autoScale && (0 <? List.length points)%nat then
    let allValues := collectValues dataKeys points in
    if (0 <? List.length allValues)%nat then Some (paddedDomain allValues)
    else domain
  else domain.

Record ReferenceArea : Type := {
  y1 : number;
  y2 : number;
  fill : string
}.

Record Line : Type := {
  dataKey : string;
  stroke : string
}.

(** [config[key]?.color || '#3b82f6']: an empty colour string is falsy. *)
Definition strokeOf (config : ChartConfig) (key : string) : string :=
  match lookup config key with
  | Some c => if String.eqb (color c) "" then "#3b82f6" else color c
  | None => "#3b82f6"
  end.

(** What [SensorChart] returns: the placeholder card with the text
    "No data available", or the card holding a line chart. *)
Inductive Card : Type :=
| NoDataCard (title description : string)
| LineChartCard (title description : string) (dataPoints : nat)
    (points : list ChartDataPoint.t) (areas : list ReferenceArea)
    (yDomain : option (number * number)) (lines : list Line).

Definition areasOf (alarmZones : option (list AlarmZone.t)) : list ReferenceArea :=
  match alarmZones with
  | Some zones =>
      map (fun zone => {| y1 := AlarmZone.min zone; y2 := AlarmZone.max zone;
                          fill := AlarmZone.color zone |}) zones
  | None => []
  end.

Definition SensorChart (props : Props) : Card :=
  let filtered := filteredData (data props) (dataKeys props) in
  if (List.length filtered =? 0)%nat then
    NoDataCard (title props) (description props)
  else
    LineChartCard (title props) (description props) (List.length filtered) filtered
      (areasOf (alarmZones props))
      (yAxisDomain (domain props) (autoScale props) (dataKeys props) filtered)
      (map (fun key => {| dataKey := key; stroke := strokeOf (config props) key |})
           (dataKeys props)).

(** *** ChartsPage *)

Definition series (key lbl col : string) : string * SeriesConfig :=
  (key, {| label := lbl; color := col |}).

(** The seven charts of the page, in page order, over the shared
    [chartData]. *)
Definition charts (chartData : list ChartDataPoint.t) : list Props :=
  [ {| title := "pH Value"; description := "pH level over time";
       data := chartData; dataKeys := ["ph"];
       config := [series "ph" "pH Value" "#3b82f6"];
       domain := None; autoScale := None;
       alarmZones := Some ALARM_ZONES.ph |};
    {| title := "Tank Temperatures"; description := "Temperature 1 & 2 in tank";
       data := chartData; dataKeys := ["temp1"; "temp2"];
       config := [series "temp1" "Temperature 1 (°C)" "#ef4444";
                  series "temp2" "Temperature 2 (°C)" "#f97316"];
       domain := Some (ofZ 0, ofZ 80); autoScale := None;
       alarmZones := Some ALARM_ZONES.tank_temperature |};
    {| title := "Gas Temperatures"; description := "BME & Methane temperature sensors";
       data := chartData; dataKeys := ["bme_temperature"; "methane_temperature"];
       config := [series "bme_temperature" "BME Temperature (°C)" "#eab308";
                  series "methane_temperature" "Methane Temperature (°C)" "#22c55e"];
       domain := None; autoScale := None; alarmZones := None |};
    {| title := "Humidity"; description := "BME sensor humidity";
       data := chartData; dataKeys := ["bme_humidity"];
       config := [series "bme_humidity" "Humidity (%)" "#06b6d4"];
       domain := None; autoScale := None; alarmZones := None |};
    {| title := "Air Pressure"; description := "BME sensor air pressure";
       data := chartData; dataKeys := ["bme_pressure"];
       config := [series "bme_pressure" "Air Pressure (hPa)" "#8b5cf6"];
       domain := None; autoScale := Some true; alarmZones := None |};
    {| title := "Gas Resistance"; description := "BME sensor gas resistance";
       data := chartData; dataKeys := ["bme_gas_resistance"];
       config := [series "bme_gas_resistance" "Gas Resistance (kΩ)" "#10b981"];
       domain := None; autoScale := None; alarmZones := None |};
    {| title := "Methane Measurements"; description := "Methane PPM and percentage";
       data := chartData; dataKeys := ["methane_ppm"; "methane_percent"];
       config := [series "methane_ppm" "Methane (ppm)" "#f59e0b";
                  series "methane_percent" "Methane (%)" "#ec4899"];
       domain := None; autoScale := None; alarmZones := None |} ].

Inductive Page : Type :=
| LoadingPage
| NoSensorDataPage
| ChartsGrid (dataPoints : nat) (cards : list Card).

Definition ChartsPage (toLocaleString toLocaleDateString : string -> string)
  (loading : bool) (data : list SensorData.t) : Page :=
  if loading then LoadingPage
  else if (List.length data =? 0)%nat then NoSensorDataPage
  else ChartsGrid (List.length data)
         (map SensorChart (charts (chartData toLocaleString toLocaleDateString data))).

End Charts.

(** *** The effect of ChartsPage: [fetchData] *)

Module FetchData.

(** [useState<SensorData[]>([])] and [useState(true)]. *)
Record State : Type := {
  data : list SensorData.t;
  loading : bool
}.

Definition initial : State := {| data := []; loading := true |}.

(** How the awaited query settles: an answer [{ data: sensorData, error }]
    (a truthy [error] is [true] here), or an exception at the [await]. *)
Inductive Awaited : Type :=
| Answered (sensorData : option (list SensorData.t)) (error : bool)
| Thrown.

(** [sensorData || []] *)
Definition orEmpty (sensorData : option (list SensorData.t)) : list SensorData.t :=
  match sensorData with Some rows => rows | None => [] end.

(** [fetchData] up to its [await]: [setLoading(true)]. *)
Definition fetchData_begin (s : State) : State :=
  {| data := data s; loading := true |}.

(** [fetchData] after its [await]. With an [error] the function logs
    and returns; an exception is caught and logged; otherwise the rows,
    which arrive newest first, are reversed and stored. The [finally]
    block runs [setLoading(false)] on every path. *)
Definition fetchData_resume (a : Awaited) (s : State) : State :=
  match a with
  | Answered sensorData error =>
      if error then {| data := data s; loading := false |}
      else {| data := rev (orEmpty sensorData); loading := false |}
  | Thrown => {| data := data s; loading := false |}
  end.

End FetchData.

(** ** The latest-reading page ([Home] in app/page.tsx) *)

Module Home.

(** The two state cells of the component:
    [useState<SensorData | null>(null)] and [useState(true)]. *)
Record State : Type := {
  data : option SensorData.t;
  loading : bool
}.

Definition initial : State := {| data := None; loading := true |}.

Definition setData (d : option SensorData.t) (s : State) : State :=
  {| data := d; loading := loading s |}.

Definition setLoading (b : bool) (s : State) : State :=
  {| data := data s; loading := b |}.

(** How the awaited query settles. The client answers a failed query
    with [{ data: null, error }] (the charts page reads both fields of
    the same client); an awaited promise may also reject, in which case
    the rest of the [async] function is skipped. *)
Inductive Awaited : Type :=
| Fulfilled (rows : option (list SensorData.t))
| Rejected.

(** [rows?.[0] ?? null] *)
Definition firstOrNull (rows : option (list SensorData.t)) : option SensorData.t :=
  match rows with
  | Some (row :: _) => Some row
  | Some [] => None
  | None => None
  end.

(** [fetchLatest] up to its [await]: [setLoading(true)]. *)
Definition fetchLatest_begin (s : State) : State :=
  setLoading true s.

(** [fetchLatest] after its [await]: [setData(rows?.[0] ?? null)] and
    [setLoading(false)], both in one synchronous run. *)
Definition fetchLatest_resume (a : Awaited) (s : State) : State :=
  match a with
  | Fulfilled rows => setLoading false (setData (firstOrNull rows) s)
  | Rejected => s
  end.

(** The component together with what its effect holds: the realtime
    subscription [sub], the interval [poll], and the number of
    [fetchLatest] calls that are waiting at their [await]. *)
Record Runtime : Type := {
  view : State;
  subscribed : bool;
  polling : bool;
  pending : nat
}.

(** The two triggers registered by the effect: an INSERT notification on
    the channel, and a tick of [setInterval(fetchLatest, 12000)]. *)
Inductive Trigger : Type :=
| Insert (payload : SensorData.t)
| Tick.

Inductive Event : Type :=
| Fire (t : Trigger)
| Settle (a : Awaited)
| Cleanup.

(** The effect body at mount: [fetchLatest()] runs up to its [await],
    the channel is subscribed and the interval is started. *)
Definition mount : Runtime :=
  {| view := fetchLatest_begin initial;
     subscribed := true;
     polling := true;
     pending := 1 |}.

(** The function returned by the effect:
    [sub.unsubscribe()] and [clearInterval(poll)]. *)
Definition cleanup (r : Runtime) : Runtime :=
  {| view := view r; subscribed := false; polling := false; pending := pending r |}.

(** One turn of the event loop. A notification runs the handler as it
    is written, [payload => setData(payload.new)], which looks at nothing
    before it writes; [sub.unsubscribe()] is not awaited, so when the
    channel stops calling it is the client's affair. A tick runs
    [fetchLatest] up to its [await]; the timers of the host call the
    callback of a cleared interval no more. A settlement needs a call
    that is waiting. *)
Definition step (r : Runtime) (e : Event) : Runtime :=
  match e with
  | Fire (Insert payload) =>
      {| view := setData (Some payload) (view r);
         subscribed := subscribed r; polling := polling r; pending := pending r |}
  | Fire Tick =>
      if polling r then
        {| view := fetchLatest_begin (view r);
           subscribed := subscribed r; polling := polling r; pending := S (pending r) |}
      else r
  | Settle a =>
      match pending r with
      | O => r
      | S n =>
          {| view := fetchLatest_resume a (view r);
             subscribed := subscribed r; polling := polling r; pending := n |}
      end
  | Cleanup => cleanup r
  end.

Definition run (r : Runtime) (events : list Event) : Runtime :=
  fold_left step events r.

(** What the component returns. *)
Inductive Screen : Type :=
| LoadingPlaceholder
| ReadingPanel (shown : option SensorData.t).

(** [!data] *)
Definition isNull (d : option SensorData.t) : bool :=
  match d with Some _ => false | None => true end.

Definition render (s : State) : Screen :=
  if loading s && isNull (data s) then LoadingPlaceholder
  else ReadingPanel (data s).

(** A row with the given timestamp and pH and no other column set. *)
Definition reading (timestamp : string) (ph : Z) : SensorData.t :=
  {| SensorData.timestamp := timestamp;
     SensorData.ph := Val (Num.ofZ ph);
     SensorData.ph_voltage := Null;
     SensorData.temp1 := Null;
     SensorData.temp2 := Null;
     SensorData.bme_temperature := Null;
     SensorData.bme_humidity := Null;
     SensorData.bme_pressure := Null;
     SensorData.bme_gas_resistance := Null;
     SensorData.methan_raw := Null;
     SensorData.methane_ppm := Null;
     SensorData.methane_percent := Null;
     SensorData.methane_temperature := Null;
     SensorData.methane_faults := Null |}.

(** The reading of the loading flag under which it would be raised by
    the initial fetch alone: along every run from [mount], no event
    takes the flag from false to true. *)
Definition loading_raised_only_initially : Prop :=
  forall (events : list Event) (e : Event),
    loading (view (run mount events)) = false ->
    loading (view (step (run mount events) e)) = false.


(** The reading of a failed fetch under which the held reading is kept
    and the flag ends false. *)
Definition failure_keeps_reading : Prop :=
  forall (r : Runtime) (n : nat),
    pending r = S n ->
    data (view (step r (Settle (Fulfilled None)))) = data (view r) /\
    loading (view (step r (Settle (Fulfilled None)))) = false /\
    loading (view (step r (Settle Rejected))) = false.

End Home.

(** ** Properties of sequences and of zone tables used in the statements *)

(** [Subseq l1 l2]: [l1] is [l2] with some elements left out, the others
    in their order. *)
Inductive Subseq {A : Type} : list A -> list A -> Prop :=
| Subseq_nil : Subseq [] []
| Subseq_keep (x : A) (l1 l2 : list A) : Subseq l1 l2 -> Subseq (x :: l1) (x :: l2)
| Subseq_drop (x : A) (l1 l2 : list A) : Subseq l1 l2 -> Subseq l1 (x :: l2).

(** At least one of the keys is present (not [undefined]) on the point. *)
Definition carries (dataKeys : list string) (point : ChartDataPoint.t) : Prop :=
  exists key, In key dataKeys /\ ChartDataPoint.get point key <> JUndefined.

Module Zones.

Import Num.

(** Consecutive zones have strictly increasing [min]. *)
Fixpoint ascending (zones : list AlarmZone.t) : bool :=
  match zones with
  | z :: ((z' :: _) as rest) =>
      ltb (AlarmZone.min z) (AlarmZone.min z') && ascending rest
  | _ => true
  end.

(** Each zone ends where the next one starts. *)
Fixpoint contiguous (zones : list AlarmZone.t) : Prop :=
  match zones with
  | z :: ((z' :: _) as rest) =>
      AlarmZone.max z = AlarmZone.min z' /\ contiguous rest
  | _ => True
  end.

(** Membership in a band: [min <= x < max], and [min <= x <= max] for
    the last band of a table. *)
Definition inBand (last : bool) (z : AlarmZone.t) (x : number) : bool :=
  leb (AlarmZone.min z) x &&
  (if last then leb x (AlarmZone.max z) else ltb x (AlarmZone.max z)).

Fixpoint bandsAt (x : number) (zones : list AlarmZone.t) : list AlarmZone.t :=
  match zones with
  | [] => []
  | [z] => if inBand true z x then [z] else []
  | z :: rest => (if inBand false z x then [z] else []) ++ bandsAt x rest
  end.

(** The table is ascending and contiguous, and a number lies in exactly
    one band when it is within [lo, hi] and in none otherwise. *)
Definition partitions (lo hi : number) (zones : list AlarmZone.t) : Prop :=
  ascending zones = true /\
  contiguous zones /\
  Forall (fun z => ltb (AlarmZone.min z) (AlarmZone.max z) = true) zones /\
  forall x : number,
    List.length (bandsAt x zones) = if leb lo x && leb x hi then 1%nat else 0%nat.

End Zones.

(** ** Rows read by column name *)

Module Columns.

(** The names of the numeric channels, as written in the [dataKeys] of
    the charts. *)
Definition numericKeys : list string :=
  ["ph"; "ph_voltage"; "temp1"; "temp2"; "bme_temperature"; "bme_humidity";
   "bme_pressure"; "bme_gas_resistance"; "methane_ppm"; "methane_percent";
   "methane_temperature"].

(** [row[key]] for a numeric channel of a row; a name that is no
    numeric column reads as missing. *)
Definition column (row : SensorData.t) (key : string) : nullable number :=
  if String.eqb key "ph" then SensorData.ph row
  else if String.eqb key "ph_voltage" then SensorData.ph_voltage row
  else if String.eqb key "temp1" then SensorData.temp1 row
  else if String.eqb key "temp2" then SensorData.temp2 row
  else if String.eqb key "bme_temperature" then SensorData.bme_temperature row
  else if String.eqb key "bme_humidity" then SensorData.bme_humidity row
  else if String.eqb key "bme_pressure" then SensorData.bme_pressure row
  else if String.eqb key "bme_gas_resistance" then SensorData.bme_gas_resistance row
  else if String.eqb key "methane_ppm" then SensorData.methane_ppm row
  else if String.eqb key "methane_percent" then SensorData.methane_percent row
  else if String.eqb key "methane_temperature" then SensorData.methane_temperature row
  else Missing.

(** The column holds no value: it is null or not there. *)
Definition isNullish {A : Type} (x : nullable A) : bool :=
  match x with Val _ => false | Null | Missing => true end.

End Columns.

(** ** What the reading panel of [Home] shows *)

Module Panel.

Import Num.

Definition dash : string := "–".

(** The argument of [format]: [number | string | null | undefined]. *)
Inductive FormatArg : Type :=
| ANull
| AUndefined
| ANumber (n : number)
| AString (s : string).

(** [data?.column]: [undefined] when no reading is held. *)
Definition read (data : option SensorData.t)
  (column : SensorData.t -> nullable number) : FormatArg :=
  match data with
  | None => AUndefined
  | Some d =>
      match column d with
      | Null => ANull
      | Missing => AUndefined
      | Val n => ANumber n
      end
  end.

Record LabelVal : Type := {
  label : string;
  value : string
}.

Record View : Type := {
  grid : list LabelVal;
  rawOutput : string;
  faultItems : list string
}.

Section Host.

(** [val.toFixed(digits)] belongs to the host. *)
Variable toFixed : number -> nat -> string.

Definition format (val : FormatArg) : string :=
  match val with
  | ANull | AUndefined => dash
  | ANumber n => if isNaN n then dash else toFixed n 2
  | AString s => s
  end.

(** [data?.timestamp ?? '–'] *)
Definition timestampOf (data : option SensorData.t) : string :=
  match data with
  | Some d => SensorData.timestamp d
  | None => dash
  end.

(** [data?.methan_raw && data.methan_raw.length > 0
      ? data.methan_raw.join(', ') : '–'] *)
Definition rawOf (data : option SensorData.t) : string :=
  match data with
  | Some d =>
      match SensorData.methan_raw d with
      | Val (token :: tokens) => String.concat ", " (token :: tokens)
      | _ => dash
      end
  | None => dash
  end.

(** [Array.isArray(data?.methane_faults) && data.methane_faults.length > 0
      ? data.methane_faults.map(...) : <li>–</li>] *)
Definition faultsOf (data : option SensorData.t) : list string :=
  match data with
  | Some d =>
      match SensorData.methane_faults d with
      | Val (fault :: faults) => fault :: faults
      | _ => [dash]
      end
  | None => [dash]
  end.

(** The card returned by [Home] once the placeholder is passed. *)
Definition panel (data : option SensorData.t) : View :=
  {| grid :=
       [ {| label := "Zeitstempel"; value := timestampOf data |};
         {| label := "pH"; value := format (read data SensorData.ph) |};
         {| label := "pH-Spannung [mV]";
            value := format (read data SensorData.ph_voltage) |};
         {| label := "Temp. 1 [°C]"; value := format (read data SensorData.temp1) |};
         {| label := "Temp. 2 [°C]"; value := format (read data SensorData.temp2) |};
         {| label := "BME Temp. [°C]";
            value := format (read data SensorData.bme_temperature) |};
         {| label := "BME Feuchte [%]";
            value := format (read data SensorData.bme_humidity) |};
         {| label := "BME Druck [hPa]";
            value := format (read data SensorData.bme_pressure) |};
         {| label := "BME Gaswiderstand [kΩ]";
            value := format (read data SensorData.bme_gas_resistance) |};
         {| label := "Methan [ppm]";
            value := format (read data SensorData.methane_ppm) |};
         {| label := "Methan [%]";
            value := format (read data SensorData.methane_percent) |};
         {| label := "Methan Temp. [°C]";
            value := format (read data SensorData.methane_temperature) |} ];
     rawOutput := rawOf data;
     faultItems := faultsOf data |}.

End Host.

End Panel.

(** ** Runs of the latest-reading page *)

Module Runs.

Import Home.

(** The settlement of a promise that rejects. *)
Definition isRejection (e : Event) : bool :=
  match e with Settle Rejected => true | _ => false end.

End Runs.

(* ================================================================== *)
(** * Part II -- properties *)
(* ================================================================== *)

(** ** Numbers: literals and the order *)

Module NumFacts.

Import Num.

Lemma tenth_is_nearest : div (ofZ 1) (ofZ 10) = tenth.
Proof. vm_compute. reflexivity. Qed.

Lemma tenth_is_literal : Prim2SF 0x1.999999999999ap-4%float = tenth.
Proof. vm_compute. reflexivity. Qed.

(** Comparison of two mantissas, told in integers. *)
Lemma mantissa_compare_spec (a b : positive) :
  CompareSpec (Z.pos a = Z.pos b) (Z.pos a < Z.pos b)%Z (Z.pos b < Z.pos a)%Z
              (Pos.compare_cont Eq a b).
Proof.
  change (Pos.compare_cont Eq a b) with (Pos.compare a b).
  destruct (Pos.compare_spec a b); constructor; lia.
Qed.

(** Case analysis on every integer and mantissa comparison in sight. *)
Ltac order_cases :=
  repeat match goal with
  | |- context [Pos.compare_cont Eq ?a ?b] =>
      change (Pos.compare_cont Eq a b) with (Pos.compare a b)
  | H : context [Pos.compare_cont Eq ?a ?b] |- _ =>
      change (Pos.compare_cont Eq a b) with (Pos.compare a b) in H
  end;
  repeat match goal with
  | |- context [Z.compare ?a ?b] => destruct (Z.compare_spec a b)
  | H : context [Z.compare ?a ?b] |- _ => destruct (Z.compare_spec a b)
  | |- context [Pos.compare ?a ?b] => destruct (Pos.compare_spec a b)
  | H : context [Pos.compare ?a ?b] |- _ => destruct (Pos.compare_spec a b)
  end;
  simpl in *; try discriminate; try reflexivity; try lia.

Ltac split_number x :=
  let s := fresh "s" in
  destruct x as [s|s| |s ? ?]; try destruct s.

Ltac by_cases :=
  unfold ltb, leb, eqb, SFltb, SFleb, SFeqb, isNaN, isPosZero, isNegZero in *;
  simpl in *; try discriminate; try reflexivity; try tauto; order_cases.

Lemma ltb_leb_trans (x y z : number) :
  ltb x y = true -> leb y z = true -> ltb x z = true.
Proof.
  intros H1 H2. split_number x; split_number y; split_number z; by_cases.
Qed.

Lemma leb_trans (x y z : number) :
  leb x y = true -> leb y z = true -> leb x z = true.
Proof.
  intros H1 H2. split_number x; split_number y; split_number z; by_cases.
Qed.

Lemma leb_refl (x : number) : isNaN x = false -> leb x x = true.
Proof.
  intros H. split_number x; by_cases.
Qed.

Lemma ltb_leb (x y : number) : ltb x y = true -> leb x y = true.
Proof.
  unfold ltb, leb, SFltb, SFleb. destruct (SFcompare x y) as [[ | | ]|]; easy.
Qed.

(** On numbers that are not NaN the order is total. *)
Lemma leb_total (x y : number) :
  isNaN x = false -> isNaN y = false -> ltb x y = false -> leb y x = true.
Proof.
  intros Hx Hy H. split_number x; split_number y; by_cases.
Qed.

Lemma leb_not_nan (x y : number) :
  leb x y = true -> isNaN x = false /\ isNaN y = false.
Proof.
  intros H. split_number x; split_number y; by_cases; auto.
Qed.

Lemma leb_Infinity (x : number) : leb Infinity x = true -> x = Infinity.
Proof.
  intros H. split_number x; by_cases.
Qed.

Lemma leb_NegInfinity (x : number) : leb x NegInfinity = true -> x = NegInfinity.
Proof.
  intros H. split_number x; by_cases.
Qed.

(** One round of the loop of [Math.min]. *)
Lemma min_round (lowest n : number) :
  isNaN lowest = false -> isNaN n = false ->
  let lowest1 := if isNegZero n && isPosZero lowest then n else lowest in
  let lowest2 := if ltb n lowest1 then n else lowest1 in
  isNaN lowest2 = false /\ leb lowest2 lowest = true /\ leb lowest2 n = true /\
  (lowest2 = n \/ lowest2 = lowest).
Proof.
  intros Hl Hn. split_number lowest; split_number n; by_cases;
    repeat split; auto; by_cases.
Qed.

(** One round of the loop of [Math.max]. *)
Lemma max_round (highest n : number) :
  isNaN highest = false -> isNaN n = false ->
  let highest1 := if isPosZero n && isNegZero highest then n else highest in
  let highest2 := if ltb highest1 n then n else highest1 in
  isNaN highest2 = false /\ leb highest highest2 = true /\ leb n highest2 = true /\
  (highest2 = n \/ highest2 = highest).
Proof.
  intros Hl Hn. split_number highest; split_number n; by_cases;
    repeat split; auto; by_cases.
Qed.

Lemma min_loop_spec (values : list number) :
  forall lowest : number,
    isNaN lowest = false ->
    Forall (fun v => isNaN v = false) values ->
    isNaN (min_loop lowest values) = false /\
    leb (min_loop lowest values) lowest = true /\
    (forall v, In v values -> leb (min_loop lowest values) v = true) /\
    (min_loop lowest values = lowest \/ In (min_loop lowest values) values).
Proof.
  induction values as [|n rest IH]; intros lowest Hl Hall; simpl.
  - repeat split; auto using leb_refl; try (now intros v []).
  - inversion Hall as [|? ? Hn Hrest]; subst. rewrite Hn.
    pose proof (min_round lowest n Hl Hn) as R. cbv zeta in R.
    destruct R as (Hnan & Hlow & Hlen & Hor).
    destruct (IH _ Hnan Hrest) as (Inan & Ilow & Iall & Imem).
    repeat split.
    + exact Inan.
    + eapply leb_trans; eassumption.
    + intros v [<- | Hv].
      * eapply leb_trans; eassumption.
      * now apply Iall.
    + destruct Imem as [E | Hin]; [|now right; right].
      rewrite E. destruct Hor as [-> | ->]; [right; left|left]; reflexivity.
Qed.

Lemma max_loop_spec (values : list number) :
  forall highest : number,
    isNaN highest = false ->
    Forall (fun v => isNaN v = false) values ->
    isNaN (max_loop highest values) = false /\
    leb highest (max_loop highest values) = true /\
    (forall v, In v values -> leb v (max_loop highest values) = true) /\
    (max_loop highest values = highest \/ In (max_loop highest values) values).
Proof.
  induction values as [|n rest IH]; intros highest Hl Hall; simpl.
  - repeat split; auto using leb_refl; try (now intros v []).
  - inversion Hall as [|? ? Hn Hrest]; subst. rewrite Hn.
    pose proof (max_round highest n Hl Hn) as R. cbv zeta in R.
    destruct R as (Hnan & Hlow & Hlen & Hor).
    destruct (IH _ Hnan Hrest) as (Inan & Ilow & Iall & Imem).
    repeat split.
    + exact Inan.
    + eapply leb_trans; eassumption.
    + intros v [<- | Hv].
      * eapply leb_trans; eassumption.
      * now apply Iall.
    + destruct Imem as [E | Hin]; [|now right; right].
      rewrite E. destruct Hor as [-> | ->]; [right; left|left]; reflexivity.
Qed.

(** [Math.min] of a non-empty array without NaN is one of its elements
    and is below every element. *)
Lemma Math_min_spec (values : list number) :
  values <> [] ->
  Forall (fun v => isNaN v = false) values ->
  In (Math_min values) values /\
  forall v, In v values -> leb (Math_min values) v = true.
Proof.
  intros Hne Hall. unfold Math_min.
  destruct (@min_loop_spec values Infinity eq_refl Hall) as (_ & _ & Iall & Imem).
  split; [|exact Iall].
  destruct Imem as [E | Hin]; [|exact Hin].
  destruct values as [|n rest]; [contradiction|].
  rewrite E. left. apply leb_Infinity. rewrite <- E. apply Iall. now left.
Qed.

(** [Math.max] of a non-empty array without NaN is one of its elements
    and is above every element. *)
Lemma Math_max_spec (values : list number) :
  values <> [] ->
  Forall (fun v => isNaN v = false) values ->
  In (Math_max values) values /\
  forall v, In v values -> leb v (Math_max values) = true.
Proof.
  intros Hne Hall. unfold Math_max.
  destruct (@max_loop_spec values NegInfinity eq_refl Hall) as (_ & _ & Iall & Imem).
  split; [|exact Iall].
  destruct Imem as [E | Hin]; [|exact Hin].
  destruct values as [|n rest]; [contradiction|].
  rewrite E. left. apply leb_NegInfinity. rewrite <- E. apply Iall. now left.
Qed.

End NumFacts.

(** ** The charts page: normalisation, filtering, scaling *)

Module ChartsFacts.

Import Num Charts NumFacts.

(** *** Rows to chart points *)

(** Reading a channel key on a chart point gives the optional property
    of that name. *)
Lemma get_channel_keys (point : ChartDataPoint.t) :
  map (ChartDataPoint.get point)
      ["ph"; "ph_voltage"; "temp1"; "temp2"; "bme_temperature"; "bme_humidity";
       "bme_pressure"; "bme_gas_resistance"; "methane_ppm"; "methane_percent";
       "methane_temperature"]
  = map (fun channel => ChartDataPoint.ofOption (snd channel point)) channels.
Proof. reflexivity. Qed.

(** [x ?? undefined], case by case. *)
Lemma orUndefined_cases (x : nullable number) :
  (x = Null \/ x = Missing ->
     orUndefined x = None /\
     orUndefined x <> Some (ofZ 0) /\
     orUndefined x <> Some NaN) /\
  (forall n, x = Val n -> orUndefined x = Some n) /\
  (x = Val (ofZ 0) ->
     orUndefined x = Some (ofZ 0) /\ orUndefined x <> None).
Proof.
  split; [|split].
  - intros [-> | ->]; simpl; repeat split; discriminate.
  - intros n ->. reflexivity.
  - intros ->. simpl. split; [reflexivity | discriminate].
Qed.

(** C4. For every row and every numeric channel, a column that is null
    or missing becomes an absent property of the chart point (so neither
    0 nor NaN), a column holding a number keeps that number, and a column
    holding 0 becomes 0, which is not absent. *)
Theorem null_channel_is_absent
  (toLocaleString toLocaleDateString : string -> string)
  (row : SensorData.t)
  (column : SensorData.t -> nullable number)
  (property : ChartDataPoint.t -> option number) :
  In (column, property) channels ->
  let point := chartPoint toLocaleString toLocaleDateString row in
  (column row = Null \/ column row = Missing ->
     property point = None /\
     property point <> Some (ofZ 0) /\
     property point <> Some NaN) /\
  (forall n, column row = Val n -> property point = Some n) /\
  (column row = Val (ofZ 0) ->
     property point = Some (ofZ 0) /\ property point <> None).
Proof.
  intros Hin point. unfold channels in Hin. simpl in Hin.
  repeat (destruct Hin as [Hin | Hin];
          [ injection Hin as <- <-; subst point; unfold chartPoint; simpl;
            apply orUndefined_cases | ]).
  contradiction.
Qed.

Lemma null_channel_is_absent_witness :
  let row := Home.reading "2025-06-01T12:00:00Z" 0 in
  let point := chartPoint (fun s => s) (fun s => s) row in
  ChartDataPoint.temp1 point = None /\
  ChartDataPoint.ph point = Some (ofZ 0).
Proof.
  split.
  - apply (@null_channel_is_absent (fun s => s) (fun s => s)
             (Home.reading "2025-06-01T12:00:00Z" 0)
             SensorData.temp1 ChartDataPoint.temp1).
    + simpl. tauto.
    + left. reflexivity.
  - apply (@null_channel_is_absent (fun s => s) (fun s => s)
             (Home.reading "2025-06-01T12:00:00Z" 0)
             SensorData.ph ChartDataPoint.ph).
    + simpl. tauto.
    + reflexivity.
Defined.

(** *** SeriesFilter: [filteredData] *)

Lemma hasValue_carries (dataKeys : list string) (point : ChartDataPoint.t) :
  hasValue dataKeys point = true <-> carries dataKeys point.
Proof.
  unfold hasValue, carries. rewrite existsb_exists.
  split; intros (key & Hin & H); exists key; split; auto.
  - intros E. rewrite E in H. discriminate.
  - destruct (ChartDataPoint.get point key); simpl; congruence.
Qed.

Lemma Subseq_filter {A : Type} (f : A -> bool) (l : list A) :
  Subseq (filter f l) l.
Proof.
  induction l as [|x l IH]; simpl.
  - constructor.
  - destruct (f x); constructor; exact IH.
Qed.

(** Every subsequence whose elements all pass the test is a subsequence
    of the filtered list. *)
Lemma Subseq_filter_greatest {A : Type} (f : A -> bool) (l1 l2 : list A) :
  Subseq l1 l2 -> Forall (fun x => f x = true) l1 -> Subseq l1 (filter f l2).
Proof.
  induction 1 as [|x l1 l2 _ IH|x l1 l2 _ IH]; intros Hall; simpl.
  - constructor.
  - inversion Hall as [|? ? Hx Hrest]; subst. rewrite Hx.
    constructor. now apply IH.
  - destruct (f x); [constructor|]; now apply IH.
Qed.

Lemma in_filteredData (data : list ChartDataPoint.t) (dataKeys : list string)
  (point : ChartDataPoint.t) :
  In point (filteredData data dataKeys) <->
  In point data /\ carries dataKeys point.
Proof.
  unfold filteredData. rewrite filter_In, hasValue_carries. reflexivity.
Qed.

(** C6. The filtered data is the input with the points left out that
    carry none of the requested keys: it is a subsequence of the input
    (order kept), it is no longer than the input, a point is in it exactly
    when it is an input point carrying a requested key, and every
    subsequence of such points is contained in it. *)
Theorem filteredData_is_the_carrying_subsequence
  (data : list ChartDataPoint.t) (dataKeys : list string) :
  Subseq (filteredData data dataKeys) data /\
  (List.length (filteredData data dataKeys) <= List.length data)%nat /\
  (forall point, In point (filteredData data dataKeys) <->
                 In point data /\ carries dataKeys point) /\
  Forall (carries dataKeys) (filteredData data dataKeys) /\
  (forall l, Subseq l data -> Forall (carries dataKeys) l ->
             Subseq l (filteredData data dataKeys)).
Proof.
  split; [apply Subseq_filter|].
  split; [apply filter_length_le|].
  split; [intros point; apply in_filteredData|].
  split.
  - apply Forall_forall. intros p Hp. now apply in_filteredData in Hp.
  - intros l Hsub Hall. apply Subseq_filter_greatest; [exact Hsub|].
    eapply Forall_impl; [|exact Hall]. intros p. apply hasValue_carries.
Qed.

Lemma filteredData_is_the_carrying_subsequence_witness :
  let p := chartPoint (fun s => s) (fun s => s) (Home.reading "t1" 7) in
  Subseq [p] (filteredData [p; p] ["ph"]).
Proof.
  apply (filteredData_is_the_carrying_subsequence
           [chartPoint (fun s => s) (fun s => s) (Home.reading "t1" 7);
            chartPoint (fun s => s) (fun s => s) (Home.reading "t1" 7)] ["ph"]).
  - apply Subseq_drop. apply Subseq_keep. apply Subseq_nil.
  - constructor; [|constructor].
    exists "ph". split; [simpl; tauto|]. vm_compute. discriminate.
Defined.

(** *** ChartSeriesBuilder: the placeholder card of [SensorChart] *)

(** A line-chart card always holds at least one point: its points are
    the filtered data, its count is their number, and its axis domain is
    computed over them. *)
Lemma line_chart_card_has_points (props : Props)
  (t d : string) (n : nat) (points : list ChartDataPoint.t)
  (areas : list ReferenceArea) (dom : option (number * number)) (lines : list Line) :
  SensorChart props = LineChartCard t d n points areas dom lines ->
  points = filteredData (data props) (dataKeys props) /\
  n = List.length points /\ points <> [] /\
  dom = yAxisDomain (domain props) (autoScale props) (dataKeys props) points.
Proof.
  unfold SensorChart.
  destruct (List.length (filteredData (data props) (dataKeys props)) =? 0)%nat eqn:E;
    [discriminate|].
  intros H. injection H as _ _ <- <- _ <- _.
  repeat split. intros Hnil. rewrite Hnil in E. discriminate.
Qed.

(** C7. When no point of the data carries any of the chart's keys,
    [SensorChart] returns the card that says "No data available", not a
    line chart over an empty list of points. *)
Theorem no_data_card_when_nothing_carried (props : Props) :
  (forall point key,
     In point (data props) -> In key (dataKeys props) ->
     ChartDataPoint.get point key = JUndefined) ->
  filteredData (data props) (dataKeys props) = [] /\
  SensorChart props = NoDataCard (title props) (description props).
Proof.
  intros Habsent.
  assert (E : filteredData (data props) (dataKeys props) = []).
  { unfold filteredData.
    destruct (filter (hasValue (dataKeys props)) (data props)) as [|p l] eqn:F;
      [reflexivity|].
    assert (Hp : In p (filter (hasValue (dataKeys props)) (data props)))
      by (rewrite F; now left).
    apply filter_In in Hp. destruct Hp as [Hin Hv].
    apply hasValue_carries in Hv. destruct Hv as (key & Hkey & Hdef).
    exfalso. apply Hdef. now apply Habsent. }
  split; [exact E|].
  unfold SensorChart. rewrite E. reflexivity.
Qed.

Lemma no_data_card_when_nothing_carried_witness :
  SensorChart
    {| title := "Humidity"; description := "BME sensor humidity";
       data := [chartPoint (fun s => s) (fun s => s) (Home.reading "t1" 7)];
       dataKeys := ["bme_humidity"];
       config := [series "bme_humidity" "Humidity (%)" "#06b6d4"];
       domain := None; autoScale := None; alarmZones := None |}
  = NoDataCard "Humidity" "BME sensor humidity".
Proof.
  apply (no_data_card_when_nothing_carried
    {| title := "Humidity"; description := "BME sensor humidity";
       data := [chartPoint (fun s => s) (fun s => s) (Home.reading "t1" 7)];
       dataKeys := ["bme_humidity"];
       config := [series "bme_humidity" "Humidity (%)" "#06b6d4"];
       domain := None; autoScale := None; alarmZones := None |}).
  simpl. intros point key [<- | []] [<- | []]. reflexivity.
Defined.

(** *** AutoScaleCalculator: the auto-scale branch of [SensorChart] *)

Lemma pushValue_app (key : string) (allValues : list number)
  (point : ChartDataPoint.t) :
  pushValue key allValues point = allValues ++ pushValue key [] point.
Proof.
  unfold pushValue. destruct (ChartDataPoint.get point key) as [|v|s].
  - now rewrite app_nil_r.
  - destruct (negb (isNaN v)); [reflexivity | now rewrite app_nil_r].
  - now rewrite app_nil_r.
Qed.

Lemma fold_pushValue (key : string) (points : list ChartDataPoint.t) :
  forall allValues,
    fold_left (pushValue key) points allValues
    = allValues ++ flat_map (pushValue key []) points.
Proof.
  induction points as [|p points IH]; intros allValues; simpl.
  - now rewrite app_nil_r.
  - rewrite IH, (pushValue_app key allValues p), app_assoc. reflexivity.
Qed.

(** The nested loops visit the keys in order and, for each key, the
    points in order. *)
Lemma collectValues_flat_map (dataKeys : list string)
  (points : list ChartDataPoint.t) :
  collectValues dataKeys points
  = flat_map (fun key => flat_map (pushValue key []) points) dataKeys.
Proof.
  unfold collectValues.
  enough (G : forall acc,
             fold_left (fun allValues key => fold_left (pushValue key) points allValues)
                       dataKeys acc
             = acc ++ flat_map (fun key => flat_map (pushValue key []) points) dataKeys)
    by apply (G []).
  induction dataKeys as [|key keys IH]; intros acc; simpl.
  - now rewrite app_nil_r.
  - rewrite IH, fold_pushValue, app_assoc. reflexivity.
Qed.

Lemma in_pushValue (key : string) (point : ChartDataPoint.t) (v : number) :
  In v (pushValue key [] point) <->
  ChartDataPoint.get point key = JNumber v /\ isNaN v = false.
Proof.
  unfold pushValue. destruct (ChartDataPoint.get point key) as [|w|s]; simpl.
  - split; [contradiction | intros [H _]; discriminate].
  - destruct (isNaN w) eqn:E; simpl.
    + split; [contradiction|]. intros [H Hv]. injection H as ->. congruence.
    + split.
      * intros [<- | []]. split; [reflexivity | exact E].
      * intros [H _]. injection H as ->. now left.
  - split; [contradiction | intros [H _]; discriminate].
Qed.

(** The pool holds exactly the numbers, NaN apart, found under a
    requested key on one of the points. *)
Lemma in_collectValues (dataKeys : list string) (points : list ChartDataPoint.t)
  (v : number) :
  In v (collectValues dataKeys points) <->
  exists key point,
    In key dataKeys /\ In point points /\
    ChartDataPoint.get point key = JNumber v /\ isNaN v = false.
Proof.
  rewrite collectValues_flat_map, in_flat_map. split.
  - intros (key & Hkey & Hv). apply in_flat_map in Hv.
    destruct Hv as (p & Hp & Hv). apply in_pushValue in Hv.
    exists key, p. tauto.
  - intros (key & p & Hkey & Hp & Hv). exists key. split; [exact Hkey|].
    apply in_flat_map. exists p. split; [exact Hp|]. now apply in_pushValue.
Qed.

Lemma collectValues_not_nan (dataKeys : list string)
  (points : list ChartDataPoint.t) :
  Forall (fun v => isNaN v = false) (collectValues dataKeys points).
Proof.
  apply Forall_forall. intros v Hv. apply in_collectValues in Hv.
  destruct Hv as (_ & _ & _ & _ & _ & H). exact H.
Qed.

Lemma collectValues_no_points (dataKeys : list string) :
  collectValues dataKeys [] = [].
Proof.
  rewrite collectValues_flat_map. induction dataKeys; simpl; auto.
Qed.

(** With auto-scaling on, the axis domain is decided by the pool alone. *)
Lemma yAxisDomain_auto (domain : option (number * number))
  (dataKeys : list string) (points : list ChartDataPoint.t) :
  yAxisDomain domain (Some true) dataKeys points
  = match collectValues dataKeys points with
    | [] => domain
    | _ :: _ => Some (paddedDomain (collectValues dataKeys points))
    end.
Proof.
  unfold yAxisDomain. destruct points as [|p points].
  - rewrite collectValues_no_points. reflexivity.
  - cbn [truthy List.length Nat.ltb Nat.leb andb].
    destruct (collectValues dataKeys (p :: points)); reflexivity.
Qed.

Lemma min_loop_repeat (v : number) (k : nat) :
  isNaN v = false -> min_loop v (repeat v k) = v.
Proof.
  intros Hv. induction k as [|k IH]; simpl; [reflexivity|].
  rewrite Hv. destruct (isNegZero v && isPosZero v); destruct (ltb v v); exact IH.
Qed.

Lemma max_loop_repeat (v : number) (k : nat) :
  isNaN v = false -> max_loop v (repeat v k) = v.
Proof.
  intros Hv. induction k as [|k IH]; simpl; [reflexivity|].
  rewrite Hv. destruct (isPosZero v && isNegZero v); destruct (ltb v v); exact IH.
Qed.

Lemma sub_diag_finite (v : number) :
  isFinite v = true -> sub v v = S754_zero false.
Proof.
  intros Hv. split_number v; try discriminate; try reflexivity;
    unfold sub, SFsub; cbv zeta; rewrite Z.sub_diag; reflexivity.
Qed.

(** A pool that repeats one finite value: the padding is zero and both
    ends of the domain are that value (for [-0] the upper end is [+0],
    which is the same number). *)
Lemma paddedDomain_constant (v : number) (k : nat) :
  isFinite v = true ->
  exists hi,
    paddedDomain (v :: repeat v k) = (v, hi) /\
    eqb hi v = true /\
    (isNegZero v = false -> hi = v).
Proof.
  intros Hv.
  assert (Hnan : isNaN v = false) by (split_number v; easy).
  assert (Hmin : Math_min (v :: repeat v k) = v).
  { unfold Math_min. cbn [min_loop]. rewrite Hnan.
    replace (isNegZero v && isPosZero Infinity) with false
      by (now rewrite andb_false_r).
    replace (ltb v Infinity) with true by (split_number v; easy).
    now apply min_loop_repeat. }
  assert (Hmax : Math_max (v :: repeat v k) = v).
  { unfold Math_max. cbn [max_loop]. rewrite Hnan.
    replace (isPosZero v && isNegZero NegInfinity) with false
      by (now rewrite andb_false_r).
    replace (ltb NegInfinity v) with true by (split_number v; easy).
    now apply max_loop_repeat. }
  unfold paddedDomain. rewrite Hmin, Hmax, (sub_diag_finite v Hv).
  change (mul (S754_zero false) tenth) with (S754_zero false).
  exists (add v (S754_zero false)). split; [|split].
  - f_equal. split_number v; try discriminate; reflexivity.
  - split_number v; try discriminate; by_cases.
  - intros Hz. split_number v; try discriminate; reflexivity.
Qed.

(** On the page, the one chart that turns auto-scaling on sets no fixed
    domain, so an empty pool leaves it with no domain at all. *)
Lemma auto_scaled_charts_set_no_domain (chartData : list ChartDataPoint.t) :
  Forall (fun props => truthy (autoScale props) = true -> domain props = None)
         (charts chartData).
Proof.
  unfold charts. repeat constructor; simpl; discriminate.
Qed.

(** C5. With auto-scaling on, the pool holds the numbers (NaN apart)
    found under the requested keys on the given points. An empty pool
    leaves the axis domain as configured (none when the chart sets none);
    otherwise the domain is [min - range*0.1, max + range*0.1] with
    [range = max - min], where [min] and [max] are elements of the pool
    bounding it. The pool 10, 20, 30 gives [8, 32]; the pool 5, 5, 5 gives
    [5, 5], and any pool repeating one finite value gives a domain of width
    zero at that value. *)
Theorem auto_scale_domain (domain : option (number * number))
  (dataKeys : list string) (points : list ChartDataPoint.t) :
  let pool := collectValues dataKeys points in
  let result := yAxisDomain domain (Some true) dataKeys points in
  (forall v, In v pool <->
     exists key point,
       In key dataKeys /\ In point points /\
       ChartDataPoint.get point key = JNumber v /\ isNaN v = false) /\
  (pool = [] -> result = domain) /\
  (pool <> [] ->
     let min := Math_min pool in
     let max := Math_max pool in
     let range := sub max min in
     In min pool /\ In max pool /\
     (forall v, In v pool -> leb min v = true /\ leb v max = true) /\
     result = Some (sub min (mul range tenth), add max (mul range tenth))) /\
  (pool = [ofZ 10; ofZ 20; ofZ 30] -> result = Some (ofZ 8, ofZ 32)) /\
  (pool = [ofZ 5; ofZ 5; ofZ 5] -> result = Some (ofZ 5, ofZ 5)) /\
  (forall v k, isFinite v = true -> pool = v :: repeat v k ->
     exists hi, result = Some (v, hi) /\ eqb hi v = true /\
                (isNegZero v = false -> hi = v)).
Proof.
  intros pool result. subst result. rewrite yAxisDomain_auto. fold pool.
  split; [|split; [|split; [|split; [|split]]]].
  - intros v. apply in_collectValues.
  - intros ->. reflexivity.
  - intros Hne min max range.
    pose proof (collectValues_not_nan dataKeys points) as Hnan. fold pool in Hnan.
    destruct (Math_min_spec Hne Hnan) as [Hmin Hlow].
    destruct (Math_max_spec Hne Hnan) as [Hmax Hhigh].
    repeat split; auto.
    destruct pool; [contradiction | reflexivity].
  - intros ->. vm_compute. reflexivity.
  - intros ->. vm_compute. reflexivity.
  - intros v k Hv ->.
    destruct (paddedDomain_constant v k Hv) as (hi & E & H1 & H2).
    exists hi. rewrite E. auto.
Qed.

(** *** The effect of ChartsPage *)

(** A failed query of the charts page -- an answer carrying an error,
    or an exception -- leaves the stored rows as they were and lowers the
    loading flag. *)
Lemma fetchData_failure_keeps_data (s : FetchData.State)
  (sensorData : option (list SensorData.t)) :
  FetchData.fetchData_resume (FetchData.Answered sensorData true)
                             (FetchData.fetchData_begin s)
  = {| FetchData.data := FetchData.data s; FetchData.loading := false |} /\
  FetchData.fetchData_resume FetchData.Thrown (FetchData.fetchData_begin s)
  = {| FetchData.data := FetchData.data s; FetchData.loading := false |}.
Proof. split; reflexivity. Qed.

(** A query that succeeds stores the rows oldest first. *)
Lemma fetchData_success_reverses (s : FetchData.State)
  (rows : list SensorData.t) :
  FetchData.data
    (FetchData.fetchData_resume (FetchData.Answered (Some rows) false)
                                (FetchData.fetchData_begin s))
  = rev rows.
Proof. reflexivity. Qed.

End ChartsFacts.


Module ChartsWitness.

Import Num Charts ChartsFacts.

Lemma auto_scale_domain_witness :
  let points := fun a b c =>
    map (chartPoint (fun s => s) (fun s => s))
        [Home.reading "t1" a; Home.reading "t2" b; Home.reading "t3" c] in
  yAxisDomain None (Some true) ["ph"] (points 10 20 30)%Z = Some (ofZ 8, ofZ 32) /\
  yAxisDomain None (Some true) ["ph"] (points 5 5 5)%Z = Some (ofZ 5, ofZ 5) /\
  yAxisDomain None (Some true) ["temp1"] (points 10 20 30)%Z = None /\
  In (Math_min (collectValues ["ph"] (points 10 20 30)%Z))
     (collectValues ["ph"] (points 10 20 30)%Z).
Proof.
  intros points.
  pose proof (auto_scale_domain None ["ph"] (points 10 20 30)%Z) as H1.
  pose proof (auto_scale_domain None ["ph"] (points 5 5 5)%Z) as H2.
  pose proof (auto_scale_domain None ["temp1"] (points 10 20 30)%Z) as H3.
  cbv zeta in H1, H2, H3.
  destruct H1 as (_ & _ & H1n & H1 & _).
  destruct H2 as (_ & _ & _ & _ & H2 & _).
  destruct H3 as (_ & H3 & _).
  assert (Hne : collectValues ["ph"] (points 10 20 30)%Z <> [])
    by (vm_compute; discriminate).
  destruct (H1n Hne) as (Hmin & _).
  split; [|split; [|split]].
  - apply H1. vm_compute. reflexivity.
  - apply H2. vm_compute. reflexivity.
  - apply H3. vm_compute. reflexivity.
  - exact Hmin.
Defined.

End ChartsWitness.

(** ** Alarm zones *)

Module ZonesFacts.

Import Num Zones NumFacts.

(** The bounds of the two tables, written out. *)
Ltac bounds :=
  repeat match goal with
  | |- context [ofZ ?z] =>
      let c := eval vm_compute in (ofZ z) in change (ofZ z) with c
  end.

(** Which bands hold a number is decided by comparing its exponent and
    mantissa with those of the bounds. *)
Ltac band_cases :=
  unfold ltb, leb, SFltb, SFleb; cbn [SFcompare]; try reflexivity;
  repeat match goal with
  | |- context [Z.compare ?a ?b] =>
      destruct (Z.compare_spec a b); try lia
  | |- context [Pos.compare_cont Eq ?a ?b] =>
      destruct (mantissa_compare_spec a b); try lia
  end;
  first [reflexivity | lia].

Lemma ph_partitions : partitions (ofZ 0) (ofZ 14) ALARM_ZONES.ph.
Proof.
  unfold partitions. split; [reflexivity|]. split; [simpl; tauto|].
  split; [repeat constructor|].
  intros x. unfold ALARM_ZONES.ph, bandsAt, inBand. cbn [AlarmZone.min AlarmZone.max].
  bounds. split_number x; band_cases.
Qed.

Lemma tank_temperature_partitions :
  partitions (ofZ 0) (ofZ 80) ALARM_ZONES.tank_temperature.
Proof.
  unfold partitions. split; [reflexivity|]. split; [simpl; tauto|].
  split; [repeat constructor|].
  intros x. unfold ALARM_ZONES.tank_temperature, bandsAt, inBand.
  cbn [AlarmZone.min AlarmZone.max].
  bounds. split_number x; band_cases.
Qed.

(** C8. Each of the two zone tables, pH and tank temperature, is in
    ascending order of [min], each zone ends where the next starts, and
    the bands [min, max) -- the last one closed -- hold every number of
    the covered range exactly once and no number outside it: [0, 14] for
    pH; [0, 80] for the tank temperature, which is also the fixed axis
    domain of that chart. *)
Theorem alarm_zones_partition_their_range :
  partitions (ofZ 0) (ofZ 14) ALARM_ZONES.ph /\
  partitions (ofZ 0) (ofZ 80) ALARM_ZONES.tank_temperature /\
  (forall chartData,
     map Charts.alarmZones (Charts.charts chartData)
     = [Some ALARM_ZONES.ph; Some ALARM_ZONES.tank_temperature;
        None; None; None; None; None]) /\
  (forall chartData,
     nth_error (map Charts.domain (Charts.charts chartData)) 1
     = Some (Some (ofZ 0, ofZ 80))).
Proof.
  split; [exact ph_partitions|]. split; [exact tank_temperature_partitions|].
  split; reflexivity.
Qed.

End ZonesFacts.

(** ** The latest-reading page *)

Module HomeFacts.

Import Home.

(** *** Last write wins *)

(** C2. A notification's payload becomes the held reading whatever was
    held before, and when a notification delivering [R1] is followed by a
    poll whose query returns [R2], the reading held at the end is [R2];
    nothing compares timestamps, so this is so for every [R1] and [R2].
    The same holds when the poll had started before the notification. *)
Theorem last_write_wins (r : Runtime) (R1 R2 : SensorData.t)
  (more : list SensorData.t) :
  subscribed r = true ->
  polling r = true ->
  data (view (step r (Fire (Insert R1)))) = Some R1 /\
  data (view (run r [Fire (Insert R1); Fire Tick;
                     Settle (Fulfilled (Some (R2 :: more)))])) = Some R2 /\
  data (view (run r [Fire Tick; Fire (Insert R1);
                     Settle (Fulfilled (Some (R2 :: more)))])) = Some R2.
Proof.
  intros Hs Hp. destruct r as [v s p n]. simpl in Hs, Hp. subst s p.
  repeat split.
Qed.

Lemma last_write_wins_witness :
  let newer := reading "2025-06-01T12:00:12Z" 7 in
  let older := reading "2025-06-01T12:00:00Z" 6 in
  data (view (run mount [Fire (Insert newer); Fire Tick;
                         Settle (Fulfilled (Some [older]))])) = Some older.
Proof.
  apply (@last_write_wins mount (reading "2025-06-01T12:00:12Z" 7)
           (reading "2025-06-01T12:00:00Z" 6) []); reflexivity.
Defined.

(** *** The loading flag *)

(** C3, as stated, fails: after the first fetch has settled with a row,
    the flag is false, and the next tick of the interval raises it. *)
Lemma poll_raises_loading_again :
  let settled := run mount [Settle (Fulfilled (Some [reading "2025-06-01T12:00:00Z" 7]))] in
  loading (view settled) = false /\
  loading (view (step settled (Fire Tick))) = true /\
  ~ loading_raised_only_initially.
Proof.
  split; [reflexivity|]. split; [reflexivity|].
  intros H.
  specialize (H [Settle (Fulfilled (Some [reading "2025-06-01T12:00:00Z" 7]))]
                (Fire Tick) eq_refl).
  discriminate H.
Qed.

(** C3, amended. The flag is raised when a fetch starts -- the fetch
    at mount and every poll alike -- and lowered when the query of a
    fetch answers; a notification leaves the flag as it is. *)
Theorem loading_follows_every_fetch (r : Runtime) :
  loading (view mount) = true /\
  (polling r = true -> loading (view (step r (Fire Tick))) = true) /\
  (forall payload,
     loading (view (step r (Fire (Insert payload)))) = loading (view r)) /\
  (forall rows n, pending r = S n ->
     loading (view (step r (Settle (Fulfilled rows)))) = false).
Proof.
  split; [reflexivity|]. split; [|split].
  - intros Hp. simpl. rewrite Hp. reflexivity.
  - intros payload. simpl. destruct (subscribed r); reflexivity.
  - intros rows n Hn. simpl. rewrite Hn. reflexivity.
Qed.

Lemma loading_follows_every_fetch_witness :
  loading (view (step mount (Fire Tick))) = true /\
  loading (view (step mount (Settle (Fulfilled None)))) = false.
Proof.
  split.
  - apply (loading_follows_every_fetch mount). reflexivity.
  - apply (loading_follows_every_fetch mount) with (n := 0%nat). reflexivity.
Defined.

(** *** A fetch that fails *)

(** C1 on the code. With a reading held and a poll waiting, a query
    answering [{ data: null, error }] clears the reading ([setData(null)])
    and lowers the flag; and when the awaited promise of the first fetch
    rejects, nothing lowers the flag, which stays true. So a failed fetch
    does not keep the reading, and it can leave the flag raised -- unlike
    [fetchData] of the charts page, which keeps its rows and lowers its
    flag on both kinds of failure. *)
Theorem failed_fetch_clears_reading :
  let held := reading "2025-06-01T12:00:00Z" 7 in
  let waiting := run mount [Settle (Fulfilled (Some [held])); Fire Tick] in
  data (view waiting) = Some held /\
  view (step waiting (Settle (Fulfilled None)))
    = {| data := None; loading := false |} /\
  view (step mount (Settle Rejected)) = {| data := None; loading := true |} /\
  ~ failure_keeps_reading.
Proof.
  split; [reflexivity|]. split; [reflexivity|]. split; [reflexivity|].
  intros H.
  destruct (H (run mount [Settle (Fulfilled (Some [reading "2025-06-01T12:00:00Z" 7]));
                          Fire Tick]) 0%nat eq_refl) as (Hd & _).
  discriminate Hd.
Qed.

(** Whatever the way a fetch fails, the flag is lowered when its query
    answers, with or without rows. *)
Lemma answered_fetch_lowers_loading (r : Runtime)
  (rows : option (list SensorData.t)) (n : nat) :
  pending r = S n ->
  loading (view (step r (Settle (Fulfilled rows)))) = false /\
  data (view (step r (Settle (Fulfilled rows)))) = firstOrNull rows.
Proof.
  intros Hn. simpl. rewrite Hn. split; reflexivity.
Qed.

(** *** Teardown *)

Lemma step_keeps_released (r : Runtime) (e : Event) :
  subscribed r = false -> polling r = false ->
  subscribed (step r e) = false /\ polling (step r e) = false.
Proof.
  intros Hs Hp. destruct e as [[payload|]|a|]; simpl.
  - auto.
  - rewrite Hp. auto.
  - destruct (pending r); simpl; auto.
  - auto.
Qed.

Lemma run_keeps_released (events : list Event) :
  forall r : Runtime,
    subscribed r = false -> polling r = false ->
    subscribed (run r events) = false /\ polling (run r events) = false.
Proof.
  induction events as [|e events IH]; intros r Hs Hp; simpl.
  - auto.
  - destruct (step_keeps_released r e Hs Hp) as [Hs' Hp']. now apply IH.
Qed.




(** *** The loading placeholder *)

Lemma render_placeholder (s : State) :
  render s = LoadingPlaceholder <-> loading s = true /\ data s = None.
Proof.
  unfold render. destruct (loading s), (data s); simpl; split;
    try discriminate; try tauto; intros [H1 H2]; discriminate.
Qed.

(** C10. The placeholder is returned exactly when the flag is raised
    and no reading is held. So with a reading held, a fetch that starts
    raises the flag and the reading stays on screen; and no single event
    takes the page from a held reading to the placeholder. *)
Theorem placeholder_needs_loading_and_no_reading (r : Runtime)
  (row : SensorData.t) (e : Event) :
  data (view r) = Some row ->
  (forall s, render s = LoadingPlaceholder <-> loading s = true /\ data s = None) /\
  loading (fetchLatest_begin (view r)) = true /\
  render (fetchLatest_begin (view r)) = ReadingPanel (Some row) /\
  (polling r = true ->
     loading (view (step r (Fire Tick))) = true /\
     render (view (step r (Fire Tick))) = ReadingPanel (Some row)) /\
  render (view (step r e)) <> LoadingPlaceholder.
Proof.
  intros Hrow. split; [exact render_placeholder|]. split; [reflexivity|].
  assert (Hbegin : render (fetchLatest_begin (view r)) = ReadingPanel (Some row)).
  { unfold render. simpl. rewrite Hrow. reflexivity. }
  split; [exact Hbegin|]. split.
  - intros Hp. simpl. rewrite Hp. simpl. split; [reflexivity | exact Hbegin].
  - rewrite render_placeholder. intros [Hl Hd].
    destruct e as [[payload|]|[rows|]|]; simpl in Hl, Hd.
    + destruct (subscribed r); simpl in Hd; congruence.
    + destruct (polling r); simpl in Hd; congruence.
    + destruct (pending r); simpl in Hl, Hd; congruence.
    + destruct (pending r); simpl in Hd; congruence.
    + congruence.
Qed.

Lemma placeholder_needs_loading_and_no_reading_witness :
  let row := reading "2025-06-01T12:00:00Z" 7 in
  let r := run mount [Settle (Fulfilled (Some [row]))] in
  render (view (step r (Fire Tick))) = ReadingPanel (Some row).
Proof.
  apply (@placeholder_needs_loading_and_no_reading
           (run mount [Settle (Fulfilled (Some [reading "2025-06-01T12:00:00Z" 7]))])
           (reading "2025-06-01T12:00:00Z" 7) (Fire Tick)); reflexivity.
Defined.

End HomeFacts.

(** ** More on the charts page *)

Module ChartsMore.

Import Num Charts Columns NumFacts ChartsFacts.

(** *** Filtering and pooling together *)

Lemma pushValue_of_dropped (dataKeys : list string) (point : ChartDataPoint.t)
  (key : string) :
  hasValue dataKeys point = false -> In key dataKeys ->
  pushValue key [] point = [].
Proof.
  intros Hdrop Hkey. unfold pushValue.
  destruct (ChartDataPoint.get point key) as [|v|s] eqn:E; try reflexivity.
  exfalso.
  assert (Hc : hasValue dataKeys point = true).
  { apply hasValue_carries. exists key. split; [exact Hkey|]. congruence. }
  congruence.
Qed.

Lemma pool_of_key_unchanged_by_filter (dataKeys : list string) (key : string)
  (data : list ChartDataPoint.t) :
  In key dataKeys ->
  flat_map (pushValue key []) (filter (hasValue dataKeys) data)
  = flat_map (pushValue key []) data.
Proof.
  intros Hkey. induction data as [|p data IH]; simpl; [reflexivity|].
  destruct (hasValue dataKeys p) eqn:E; simpl.
  - now rewrite IH.
  - now rewrite IH, (pushValue_of_dropped dataKeys p key E Hkey).
Qed.

Lemma flat_map_ext_in {A B : Type} (f g : A -> list B) (l : list A) :
  (forall a, In a l -> f a = g a) -> flat_map f l = flat_map g l.
Proof.
  induction l as [|a l IH]; intros H; simpl; [reflexivity|].
  rewrite (H a) by now left. rewrite IH; [reflexivity|].
  intros b Hb. apply H. now right.
Qed.

(** The points dropped by the filter hold no value under the requested
    keys, so the pool of the auto-scale branch is the same over the
    filtered points as over all points, value for value and in the same
    order; and so is the axis domain. *)
Theorem filter_loses_no_pooled_value (data : list ChartDataPoint.t)
  (dataKeys : list string) (domain : option (number * number))
  (autoScale : option bool) :
  collectValues dataKeys (filteredData data dataKeys)
  = collectValues dataKeys data /\
  yAxisDomain domain autoScale dataKeys (filteredData data dataKeys)
  = yAxisDomain domain autoScale dataKeys data.
Proof.
  assert (Hpool : collectValues dataKeys (filteredData data dataKeys)
                  = collectValues dataKeys data).
  { rewrite !collectValues_flat_map. unfold filteredData.
    apply flat_map_ext_in. intros key Hkey.
    now apply pool_of_key_unchanged_by_filter. }
  split; [exact Hpool|].
  unfold yAxisDomain. rewrite Hpool.
  destruct (filteredData data dataKeys) as [|p rest] eqn:F.
  - rewrite <- Hpool, collectValues_no_points.
    destruct (truthy autoScale), data; reflexivity.
  - destruct data as [|q data']; [discriminate F|]. reflexivity.
Qed.

(** *** Values that are NaN *)

Lemma pool_empty_when_all_nan (dataKeys : list string)
  (points : list ChartDataPoint.t) :
  (forall point key n,
     In point points -> In key dataKeys ->
     ChartDataPoint.get point key = JNumber n -> isNaN n = true) ->
  collectValues dataKeys points = [].
Proof.
  intros Hnan. destruct (collectValues dataKeys points) as [|v pool] eqn:E;
    [reflexivity|].
  assert (Hv : In v (collectValues dataKeys points)) by (rewrite E; now left).
  apply in_collectValues in Hv. destruct Hv as (key & p & Hk & Hp & Hget & Hn).
  rewrite (Hnan p key v Hp Hk Hget) in Hn. discriminate.
Qed.

(** A value that is NaN counts as a value for the filter ([NaN] is not
    [undefined]) but is never pooled. So when some point carries a key
    and every number under the keys is NaN, [SensorChart] draws the chart
    over the carrying points, and auto-scaling computes nothing: the axis
    domain is the [domain] property as passed. *)
Theorem nan_is_drawn_but_not_scaled (props : Props) :
  (exists point, In point (data props) /\ carries (dataKeys props) point) ->
  (forall point key n,
     In point (data props) -> In key (dataKeys props) ->
     ChartDataPoint.get point key = JNumber n -> isNaN n = true) ->
  SensorChart props
  = LineChartCard (title props) (description props)
      (List.length (filteredData (data props) (dataKeys props)))
      (filteredData (data props) (dataKeys props))
      (areasOf (alarmZones props))
      (domain props)
      (map (fun key => {| dataKey := key; stroke := strokeOf (config props) key |})
           (dataKeys props)).
Proof.
  intros (p & Hp & Hc) Hnan. unfold SensorChart.
  assert (Hin : In p (filteredData (data props) (dataKeys props)))
    by (apply in_filteredData; auto).
  destruct (filteredData (data props) (dataKeys props)) as [|q rest] eqn:F;
    [contradiction|].
  cbn [List.length Nat.eqb]. f_equal.
  unfold yAxisDomain. rewrite pool_empty_when_all_nan.
  - destruct (truthy (autoScale props) && (0 <? List.length (q :: rest))%nat);
      reflexivity.
  - intros point key n Hpoint Hkey Hget. apply (Hnan point key n); auto.
    assert (Hf : In point (filteredData (data props) (dataKeys props)))
      by (rewrite F; exact Hpoint).
    apply in_filteredData in Hf. tauto.
Qed.

Lemma nan_is_drawn_but_not_scaled_witness :
  let point :=
    ChartDataPoint.Build "t1" "d1" (Some NaN) None None None None None None None
                         None None None in
  exists n points areas lines,
    SensorChart
      {| title := "pH Value"; description := "pH level over time";
         data := [point]; dataKeys := ["ph"];
         config := [series "ph" "pH Value" "#3b82f6"];
         domain := None; autoScale := Some true; alarmZones := None |}
    = LineChartCard "pH Value" "pH level over time" n points areas None lines.
Proof.
  intros point. do 4 eexists.
  apply (nan_is_drawn_but_not_scaled
           {| title := "pH Value"; description := "pH level over time";
              data := [point]; dataKeys := ["ph"];
              config := [series "ph" "pH Value" "#3b82f6"];
              domain := None; autoScale := Some true; alarmZones := None |}).
  - exists point. split; [now left|].
    exists "ph". split; [now left|]. vm_compute. discriminate.
  - simpl. intros p key n [<- | []] [<- | []] H. vm_compute in H.
    injection H as <-. reflexivity.
Defined.

(** *** The two cards of [SensorChart] *)

Lemma no_data_card_iff_none_carries (props : Props) :
  SensorChart props = NoDataCard (title props) (description props) <->
  forall point, In point (data props) -> ~ carries (dataKeys props) point.
Proof.
  split.
  - intros Hcard point Hin Hc.
    assert (Hf : In point (filteredData (data props) (dataKeys props)))
      by (apply in_filteredData; auto).
    unfold SensorChart in Hcard.
    destruct (filteredData (data props) (dataKeys props)); [contradiction|].
    discriminate Hcard.
  - intros Hnone. unfold SensorChart.
    destruct (filteredData (data props) (dataKeys props)) as [|p rest] eqn:F;
      [reflexivity|].
    assert (Hf : In p (filteredData (data props) (dataKeys props)))
      by (rewrite F; now left).
    apply in_filteredData in Hf. destruct Hf as [Hin Hc].
    exfalso. exact (Hnone p Hin Hc).
Qed.

(** [SensorChart] returns the "No data available" card exactly when no
    point carries a requested key. Otherwise it returns a line chart over
    the carrying points, which holds every such point, states their
    number -- at least one, at most the number of points passed in -- and
    has one line per requested key, in the order of the keys, whether or
    not any point carries that key. *)
Theorem sensorChart_card_cases (props : Props) :
  (SensorChart props = NoDataCard (title props) (description props) <->
   forall point, In point (data props) -> ~ carries (dataKeys props) point) /\
  (forall point,
     In point (data props) -> carries (dataKeys props) point ->
     exists n points areas dom lines,
       SensorChart props
       = LineChartCard (title props) (description props) n points areas dom lines /\
       In point points /\
       n = List.length points /\
       (1 <= n <= List.length (data props))%nat /\
       map dataKey lines = dataKeys props).
Proof.
  split; [apply no_data_card_iff_none_carries|].
  intros point Hin Hc.
  assert (Hf : In point (filteredData (data props) (dataKeys props)))
    by (apply in_filteredData; auto).
  pose proof (filter_length_le (hasValue (dataKeys props)) (data props)) as Hle.
  fold (filteredData (data props) (dataKeys props)) in Hle.
  unfold SensorChart.
  destruct (filteredData (data props) (dataKeys props)) as [|p rest] eqn:F;
    [contradiction|].
  cbn [List.length Nat.eqb]. do 5 eexists.
  split; [reflexivity|]. split; [exact Hf|]. split; [reflexivity|].
  split; [simpl in *; lia|].
  rewrite map_map. simpl. apply map_id.
Qed.

Lemma sensorChart_card_cases_witness :
  let point := chartPoint (fun s => s) (fun s => s) (Home.reading "t1" 7) in
  exists n points areas dom lines,
    SensorChart
      {| title := "Tank Temperatures"; description := "Temperature 1 & 2 in tank";
         data := [point]; dataKeys := ["ph"; "temp2"];
         config := []; domain := None; autoScale := None; alarmZones := None |}
    = LineChartCard "Tank Temperatures" "Temperature 1 & 2 in tank"
        n points areas dom lines /\
    In point points /\ n = List.length points /\
    (1 <= n <= 1)%nat /\ map dataKey lines = ["ph"; "temp2"].
Proof.
  intros point.
  apply (sensorChart_card_cases
           {| title := "Tank Temperatures"; description := "Temperature 1 & 2 in tank";
              data := [point]; dataKeys := ["ph"; "temp2"];
              config := []; domain := None; autoScale := None; alarmZones := None |}).
  - now left.
  - exists "ph". split; [now left|]. vm_compute. discriminate.
Defined.

(** *** From the columns of the rows to the card *)

Lemma get_chartPoint_column (toLocaleString toLocaleDateString : string -> string)
  (row : SensorData.t) (key : string) :
  In key numericKeys ->
  ChartDataPoint.get (chartPoint toLocaleString toLocaleDateString row) key
  = ChartDataPoint.ofOption (orUndefined (column row key)).
Proof.
  unfold numericKeys. simpl.
  intros H. repeat (destruct H as [<- | H]; [reflexivity|]). contradiction.
Qed.

Lemma carries_iff_column (toLocaleString toLocaleDateString : string -> string)
  (row : SensorData.t) (dataKeys : list string) :
  incl dataKeys numericKeys ->
  (carries dataKeys (chartPoint toLocaleString toLocaleDateString row) <->
   exists key, In key dataKeys /\ isNullish (column row key) = false).
Proof.
  intros Hkeys. unfold carries.
  split; intros (key & Hk & H); exists key; (split; [exact Hk|]);
    rewrite get_chartPoint_column in * by (apply Hkeys; exact Hk);
    destruct (column row key); simpl in *; congruence.
Qed.

Lemma no_data_iff_columns_null
  (toLocaleString toLocaleDateString : string -> string)
  (rows : list SensorData.t) (props : Props) :
  incl (dataKeys props) numericKeys ->
  data props = chartData toLocaleString toLocaleDateString rows ->
  (SensorChart props = NoDataCard (title props) (description props) <->
   forall row key,
     In row rows -> In key (dataKeys props) ->
     isNullish (column row key) = true).
Proof.
  intros Hkeys Hdata.
  rewrite no_data_card_iff_none_carries, Hdata.
  unfold chartData. split.
  - intros Hnone row key Hrow Hkey.
    destruct (isNullish (column row key)) eqn:E; [reflexivity|].
    exfalso. apply (Hnone (chartPoint toLocaleString toLocaleDateString row)).
    + now apply in_map.
    + apply carries_iff_column; [exact Hkeys|]. exists key. auto.
  - intros Hnull point Hpoint Hc. apply in_map_iff in Hpoint.
    destruct Hpoint as (row & <- & Hrow).
    apply carries_iff_column in Hc; [|exact Hkeys].
    destruct Hc as (key & Hkey & Hval). rewrite (Hnull row key Hrow Hkey) in Hval.
    discriminate.
Qed.

(** For a chart over the normalised rows whose keys are numeric channels:
    the "No data available" card is returned exactly when every row has
    null (or nothing) in every column the chart plots -- rows there may
    be, with values in other columns. A column holding a number, be it 0
    or NaN, counts as a value: the chart is then drawn and the point of
    that row is on it. *)
Theorem no_data_card_iff_columns_null
  (toLocaleString toLocaleDateString : string -> string)
  (rows : list SensorData.t) (props : Props) :
  incl (dataKeys props) numericKeys ->
  data props = chartData toLocaleString toLocaleDateString rows ->
  (SensorChart props = NoDataCard (title props) (description props) <->
   forall row key,
     In row rows -> In key (dataKeys props) ->
     isNullish (column row key) = true) /\
  (forall row key n,
     In row rows -> In key (dataKeys props) -> column row key = Val n ->
     exists count points areas dom lines,
       SensorChart props
       = LineChartCard (title props) (description props) count points areas dom lines /\
       In (chartPoint toLocaleString toLocaleDateString row) points).
Proof.
  intros Hkeys Hdata.
  split; [now apply (@no_data_iff_columns_null toLocaleString toLocaleDateString)|].
  intros row key n Hrow Hkey Hval.
  assert (Hc : carries (dataKeys props)
                 (chartPoint toLocaleString toLocaleDateString row)).
  { apply carries_iff_column; [exact Hkeys|]. exists key.
    split; [exact Hkey|]. now rewrite Hval. }
  assert (Hf : In (chartPoint toLocaleString toLocaleDateString row)
                  (filteredData (data props) (dataKeys props))).
  { apply in_filteredData. split; [|exact Hc].
    rewrite Hdata. unfold chartData. now apply in_map. }
  unfold SensorChart.
  destruct (filteredData (data props) (dataKeys props)) as [|p rest] eqn:F;
    [contradiction|].
  cbn [List.length Nat.eqb]. do 5 eexists. split; [reflexivity | exact Hf].
Qed.

Lemma no_data_card_iff_columns_null_witness :
  let rows := [Home.reading "t1" 7; Home.reading "t2" 8] in
  SensorChart
    {| title := "Humidity"; description := "BME sensor humidity";
       data := chartData (fun s => s) (fun s => s) rows;
       dataKeys := ["bme_humidity"];
       config := [series "bme_humidity" "Humidity (%)" "#06b6d4"];
       domain := None; autoScale := None; alarmZones := None |}
  = NoDataCard "Humidity" "BME sensor humidity".
Proof.
  intros rows.
  apply (@no_data_card_iff_columns_null (fun s => s) (fun s => s) rows
    {| title := "Humidity"; description := "BME sensor humidity";
       data := chartData (fun s => s) (fun s => s) rows;
       dataKeys := ["bme_humidity"];
       config := [series "bme_humidity" "Humidity (%)" "#06b6d4"];
       domain := None; autoScale := None; alarmZones := None |}).
  - intros key [<- | []]. unfold numericKeys. simpl. tauto.
  - reflexivity.
  - simpl. intros row key [<- | [<- | []]] [<- | []]; reflexivity.
Defined.

(** *** The page as a whole *)

(** Every chart of the page plots numeric channels of the shared chart
    data. *)
Lemma page_charts_plot_channels (chartData : list ChartDataPoint.t) :
  Forall (fun props => incl (dataKeys props) numericKeys /\ data props = chartData)
         (charts chartData).
Proof.
  assert (Hin : forall keys,
             forallb (fun key => existsb (String.eqb key) numericKeys) keys = true ->
             incl keys numericKeys).
  { intros keys H key Hkey. rewrite forallb_forall in H.
    specialize (H key Hkey). apply existsb_exists in H.
    destruct H as (k & Hk & E). apply String.eqb_eq in E. now subst. }
  unfold charts.
  repeat (apply Forall_cons; [split; [apply Hin; reflexivity | reflexivity]|]).
  apply Forall_nil.
Qed.

(** Once loading is over and there are rows, the page shows their number
    and seven cards, one per chart. The card of a chart is the "No data
    available" card exactly when every row is null in all the columns of
    that chart, and a line chart never states more points than the page
    states rows, nor fewer than one. *)
Theorem chartsPage_cards
  (toLocaleString toLocaleDateString : string -> string)
  (rows : list SensorData.t) :
  rows <> [] ->
  let definitions := charts (chartData toLocaleString toLocaleDateString rows) in
  ChartsPage toLocaleString toLocaleDateString false rows
  = ChartsGrid (List.length rows) (map SensorChart definitions) /\
  List.length (map SensorChart definitions) = 7%nat /\
  Forall (fun props =>
            (SensorChart props = NoDataCard (title props) (description props) <->
             forall row key,
               In row rows -> In key (dataKeys props) ->
               isNullish (column row key) = true) /\
            (forall t d n points areas dom lines,
               SensorChart props = LineChartCard t d n points areas dom lines ->
               (1 <= n <= List.length rows)%nat))
         definitions.
Proof.
  intros Hne definitions. split; [|split].
  - unfold ChartsPage. destruct rows; [contradiction | reflexivity].
  - reflexivity.
  - subst definitions.
    eapply Forall_impl;
      [|apply (page_charts_plot_channels
                 (chartData toLocaleString toLocaleDateString rows))].
    intros props [Hkeys Hdata]. split.
    + now apply (@no_data_iff_columns_null toLocaleString toLocaleDateString rows).
    + intros t d n points areas dom lines Hcard.
      apply line_chart_card_has_points in Hcard.
      destruct Hcard as (Hpts & Hn & Hnonempty & _).
      assert (Hle : (List.length points <= List.length rows)%nat).
      { rewrite Hpts. unfold filteredData.
        etransitivity; [apply filter_length_le|].
        rewrite Hdata. unfold chartData. now rewrite length_map. }
      destruct points; [contradiction|]. simpl in *. lia.
Qed.

Lemma chartsPage_cards_witness :
  exists cards,
    ChartsPage (fun s => s) (fun s => s) false [Home.reading "t1" 7]
    = ChartsGrid 1 cards /\ List.length cards = 7%nat.
Proof.
  eexists.
  destruct (@chartsPage_cards (fun s => s) (fun s => s) [Home.reading "t1" 7])
    as (Hpage & Hlen & _).
  - discriminate.
  - split; [exact Hpage | exact Hlen].
Defined.

(** *** Fetching the rows *)

(** However the query of [fetchData] settles, the loading flag ends
    lowered, so the page leaves its loading screen. A failure -- an
    answer with an error, or an exception -- keeps the rows stored
    before, so the page shows what it showed; on the first load that is
    the "No sensor data available" page, as it is for an answer without
    rows. *)
Theorem fetchData_always_settles_the_page
  (toLocaleString toLocaleDateString : string -> string)
  (s : FetchData.State) (a : FetchData.Awaited) :
  let after := FetchData.fetchData_resume a (FetchData.fetchData_begin s) in
  let page := fun st : FetchData.State =>
    ChartsPage toLocaleString toLocaleDateString
               (FetchData.loading st) (FetchData.data st) in
  FetchData.loading after = false /\
  page after <> LoadingPage /\
  ((a = FetchData.Thrown \/ exists d, a = FetchData.Answered d true) ->
     FetchData.data after = FetchData.data s /\
     (s = FetchData.initial -> page after = NoSensorDataPage)) /\
  ((a = FetchData.Answered None false \/ a = FetchData.Answered (Some []) false) ->
     page after = NoSensorDataPage).
Proof.
  intros after page.
  assert (Hl : FetchData.loading after = false).
  { subst after. destruct a as [d [|]|]; reflexivity. }
  split; [exact Hl|]. split; [|split].
  - subst page. cbv beta. rewrite Hl. unfold ChartsPage.
    destruct (List.length (FetchData.data after) =? 0)%nat; discriminate.
  - intros Hfail.
    assert (Hd : FetchData.data after = FetchData.data s).
    { subst after. destruct Hfail as [-> | [d ->]]; reflexivity. }
    split; [exact Hd|]. intros ->. subst page. cbv beta. rewrite Hl, Hd.
    reflexivity.
  - intros [-> | ->]; reflexivity.
Qed.

Lemma fetchData_always_settles_the_page_witness :
  ChartsPage (fun s => s) (fun s => s)
    (FetchData.loading
       (FetchData.fetchData_resume FetchData.Thrown
          (FetchData.fetchData_begin FetchData.initial)))
    (FetchData.data
       (FetchData.fetchData_resume FetchData.Thrown
          (FetchData.fetchData_begin FetchData.initial)))
  = NoSensorDataPage.
Proof.
  destruct (@fetchData_always_settles_the_page (fun s => s) (fun s => s)
              FetchData.initial FetchData.Thrown) as (_ & _ & Hfail & _).
  destruct (Hfail (or_introl eq_refl)) as [_ Hpage].
  exact (Hpage eq_refl).
Defined.

Lemma StronglySorted_snoc {A : Type} (R : A -> A -> Prop) (l : list A) (x : A) :
  StronglySorted R l -> Forall (fun y => R y x) l -> StronglySorted R (l ++ [x]).
Proof.
  induction 1 as [|a l Hs IH Ha]; intros Hall; simpl.
  - repeat constructor.
  - inversion Hall as [|? ? Hax Hrest]; subst. constructor.
    + now apply IH.
    + apply Forall_app. split; [exact Ha | now constructor].
Qed.

Lemma StronglySorted_rev {A : Type} (R : A -> A -> Prop) (l : list A) :
  StronglySorted (fun a b => R b a) l -> StronglySorted R (rev l).
Proof.
  induction 1 as [|a l Hs IH Ha]; simpl.
  - constructor.
  - apply StronglySorted_snoc; [exact IH|].
    apply Forall_forall. intros y Hy. apply in_rev in Hy.
    rewrite Forall_forall in Ha. now apply Ha.
Qed.

(** The query asks for the rows newest first. When they arrive so, in
    whatever order relation "not later than" one takes, [fetchData] stores
    them oldest first, all of them, and the chart points follow in that
    same order. *)
Theorem fetchData_stores_oldest_first
  (notLater : SensorData.t -> SensorData.t -> Prop)
  (toLocaleString toLocaleDateString : string -> string)
  (s : FetchData.State) (rows : list SensorData.t) :
  StronglySorted (fun newer older => notLater older newer) rows ->
  let after :=
    FetchData.fetchData_resume (FetchData.Answered (Some rows) false)
                               (FetchData.fetchData_begin s) in
  StronglySorted notLater (FetchData.data after) /\
  List.length (FetchData.data after) = List.length rows /\
  (forall row, In row (FetchData.data after) <-> In row rows) /\
  chartData toLocaleString toLocaleDateString (FetchData.data after)
  = rev (chartData toLocaleString toLocaleDateString rows).
Proof.
  intros Hsorted after. subst after. simpl. split; [|split; [|split]].
  - now apply StronglySorted_rev.
  - apply length_rev.
  - intros row. symmetry. apply in_rev.
  - unfold chartData. apply map_rev.
Qed.

Lemma fetchData_stores_oldest_first_witness :
  let notLater := fun a b : SensorData.t =>
    String.leb (SensorData.timestamp a) (SensorData.timestamp b) = true in
  StronglySorted notLater
    (FetchData.data
       (FetchData.fetchData_resume
          (FetchData.Answered
             (Some [Home.reading "2025-06-01T12:00:12Z" 7;
                    Home.reading "2025-06-01T12:00:00Z" 6]) false)
          (FetchData.fetchData_begin FetchData.initial))).
Proof.
  intros notLater.
  apply (@fetchData_stores_oldest_first notLater (fun s => s) (fun s => s)
           FetchData.initial
           [Home.reading "2025-06-01T12:00:12Z" 7;
            Home.reading "2025-06-01T12:00:00Z" 6]).
  repeat constructor.
Defined.

(** *** Keys that are no channel *)

Lemma filter_all {A : Type} (f : A -> bool) (l : list A) :
  (forall x, In x l -> f x = true) -> filter f l = l.
Proof.
  induction l as [|x l IH]; intros H; simpl; [reflexivity|].
  rewrite (H x) by now left. f_equal. apply IH. intros y Hy. apply H. now right.
Qed.

(** The filter tests [point[key] !== undefined] for whatever names it is
    given. Every point has a ["timestamp"] and a ["date"], so with one of
    them among the keys no point is ever dropped; and since both hold
    strings, on their own they put nothing in the pool of the auto-scale
    branch. *)
Theorem filteredData_with_label_keys (data : list ChartDataPoint.t)
  (dataKeys : list string) :
  In "timestamp" dataKeys \/ In "date" dataKeys ->
  filteredData data dataKeys = data /\
  collectValues ["timestamp"; "date"] data = [].
Proof.
  intros Hkey. split.
  - unfold filteredData. apply filter_all. intros p _. apply hasValue_carries.
    destruct Hkey as [H | H]; [exists "timestamp" | exists "date"];
      (split; [exact H | discriminate]).
  - destruct (collectValues ["timestamp"; "date"] data) as [|v pool] eqn:E;
      [reflexivity|].
    assert (Hv : In v (collectValues ["timestamp"; "date"] data))
      by (rewrite E; now left).
    apply in_collectValues in Hv.
    destruct Hv as (key & p & Hk & _ & Hget & _).
    destruct Hk as [<- | [<- | []]]; discriminate Hget.
Qed.

Lemma filteredData_with_label_keys_witness :
  let points :=
    map (chartPoint (fun s => s) (fun s => s))
        [Home.reading "t1" 7; Home.reading "t2" 8] in
  filteredData points ["temp1"; "timestamp"] = points.
Proof.
  intros points.
  apply (filteredData_with_label_keys points ["temp1"; "timestamp"]).
  left. simpl. tauto.
Defined.

(** *** The pool as a set *)

(** Two numbers each below the other are the same number, the two zeros
    apart. *)
Lemma leb_antisym (x y : number) :
  leb x y = true -> leb y x = true ->
  x = y \/ (isFinite x = true /\ isFinite y = true /\
            (isNegZero x || isPosZero x) = true /\
            (isNegZero y || isPosZero y) = true).
Proof.
  intros H1 H2. split_number x; split_number y; by_cases;
    try (right; repeat split; reflexivity);
    left; f_equal; lia.
Qed.

(** "Below zero, or the negative zero". *)
Lemma min_round_sign (lowest n : number) :
  isNaN lowest = false -> isNaN n = false ->
  let lowest1 := if isNegZero n && isPosZero lowest then n else lowest in
  let lowest2 := if ltb n lowest1 then n else lowest1 in
  (isNegZero lowest2 = true -> isNegZero lowest = true \/ isNegZero n = true) /\
  ((isNegZero lowest || ltb lowest (S754_zero false)) = true \/ isNegZero n = true ->
   (isNegZero lowest2 || ltb lowest2 (S754_zero false)) = true).
Proof.
  intros Hl Hn. split_number lowest; split_number n; by_cases;
    split; intros H; auto; by_cases; try (destruct H; discriminate).
Qed.

Lemma max_round_sign (highest n : number) :
  isNaN highest = false -> isNaN n = false ->
  let highest1 := if isPosZero n && isNegZero highest then n else highest in
  let highest2 := if ltb highest1 n then n else highest1 in
  (isPosZero highest2 = true -> isPosZero highest = true \/ isPosZero n = true) /\
  ((isPosZero highest || ltb (S754_zero false) highest) = true \/ isPosZero n = true ->
   (isPosZero highest2 || ltb (S754_zero false) highest2) = true).
Proof.
  intros Hl Hn. split_number highest; split_number n; by_cases;
    split; intros H; auto; by_cases; try (destruct H; discriminate).
Qed.

Lemma min_loop_sign (values : list number) :
  forall lowest : number,
    isNaN lowest = false ->
    Forall (fun v => isNaN v = false) values ->
    (isNegZero (min_loop lowest values) = true ->
     isNegZero lowest = true \/ In (S754_zero true) values) /\
    ((isNegZero lowest || ltb lowest (S754_zero false)) = true
     \/ In (S754_zero true) values ->
     (isNegZero (min_loop lowest values)
      || ltb (min_loop lowest values) (S754_zero false)) = true).
Proof.
  induction values as [|n rest IH]; intros lowest Hl Hall; simpl.
  - split; [auto | intros [H | []]; exact H].
  - inversion Hall as [|? ? Hn Hrest]; subst. rewrite Hn.
    pose proof (min_round lowest n Hl Hn) as R. cbv zeta in R.
    destruct R as (Hnan & _).
    pose proof (min_round_sign lowest n Hl Hn) as S. cbv zeta in S.
    destruct S as [SA SB].
    destruct (IH _ Hnan Hrest) as [IA IB]. split.
    + intros Hr. destruct (IA Hr) as [H2 | Hin]; [|now right; right].
      destruct (SA H2) as [H | H]; [now left|].
      right. left. destruct n as [[|]| | |]; try discriminate. reflexivity.
    + intros [H | [E | Hin]]; apply IB.
      * left. apply SB. now left.
      * left. apply SB. right. now rewrite E.
      * now right.
Qed.

Lemma max_loop_sign (values : list number) :
  forall highest : number,
    isNaN highest = false ->
    Forall (fun v => isNaN v = false) values ->
    (isPosZero (max_loop highest values) = true ->
     isPosZero highest = true \/ In (S754_zero false) values) /\
    ((isPosZero highest || ltb (S754_zero false) highest) = true
     \/ In (S754_zero false) values ->
     (isPosZero (max_loop highest values)
      || ltb (S754_zero false) (max_loop highest values)) = true).
Proof.
  induction values as [|n rest IH]; intros highest Hl Hall; simpl.
  - split; [auto | intros [H | []]; exact H].
  - inversion Hall as [|? ? Hn Hrest]; subst. rewrite Hn.
    pose proof (max_round highest n Hl Hn) as R. cbv zeta in R.
    destruct R as (Hnan & _).
    pose proof (max_round_sign highest n Hl Hn) as S. cbv zeta in S.
    destruct S as [SA SB].
    destruct (IH _ Hnan Hrest) as [IA IB]. split.
    + intros Hr. destruct (IA Hr) as [H2 | Hin]; [|now right; right].
      destruct (SA H2) as [H | H]; [now left|].
      right. left. destruct n as [[|]| | |]; try discriminate. reflexivity.
    + intros [H | [E | Hin]]; apply IB.
      * left. apply SB. now left.
      * left. apply SB. right. now rewrite E.
      * now right.
Qed.

(** [Math.min] sees an array as a set: two arrays without NaN that hold
    the same numbers have the same minimum. *)
Lemma Math_min_ext (l l' : list number) :
  l <> [] ->
  Forall (fun v => isNaN v = false) l ->
  Forall (fun v => isNaN v = false) l' ->
  (forall v, In v l <-> In v l') ->
  Math_min l = Math_min l'.
Proof.
  intros Hne Hl Hl' Hsame.
  assert (Hne' : l' <> []).
  { destruct l as [|v l]; [contradiction|]. intros ->.
    apply (proj1 (Hsame v)). now left. }
  destruct (Math_min_spec Hne Hl) as [Hin Hlow].
  destruct (Math_min_spec Hne' Hl') as [Hin' Hlow'].
  destruct (@min_loop_sign l Infinity eq_refl Hl) as [A B].
  destruct (@min_loop_sign l' Infinity eq_refl Hl') as [A' B'].
  fold (Math_min l) in A, B. fold (Math_min l') in A', B'.
  destruct (leb_antisym (Math_min l) (Math_min l')) as [E | (_ & _ & Z & Z')].
  - apply Hlow. now apply Hsame.
  - apply Hlow'. now apply Hsame.
  - exact E.
  - destruct (isNegZero (Math_min l)) eqn:N.
    + destruct (A eq_refl) as [H | H]; [discriminate|].
      apply Hsame in H. specialize (B' (or_intror H)).
      destruct (Math_min l) as [[|]| | |], (Math_min l') as [[|]| | |];
        try discriminate; reflexivity.
    + destruct (isNegZero (Math_min l')) eqn:N'.
      * destruct (A' eq_refl) as [H | H]; [discriminate|].
        apply Hsame in H. specialize (B (or_intror H)).
        destruct (Math_min l) as [[|]| | |]; discriminate.
      * destruct (Math_min l) as [[|]| | |], (Math_min l') as [[|]| | |];
          try discriminate; reflexivity.
Qed.

Lemma Math_max_ext (l l' : list number) :
  l <> [] ->
  Forall (fun v => isNaN v = false) l ->
  Forall (fun v => isNaN v = false) l' ->
  (forall v, In v l <-> In v l') ->
  Math_max l = Math_max l'.
Proof.
  intros Hne Hl Hl' Hsame.
  assert (Hne' : l' <> []).
  { destruct l as [|v l]; [contradiction|]. intros ->.
    apply (proj1 (Hsame v)). now left. }
  destruct (Math_max_spec Hne Hl) as [Hin Hhigh].
  destruct (Math_max_spec Hne' Hl') as [Hin' Hhigh'].
  destruct (@max_loop_sign l NegInfinity eq_refl Hl) as [A B].
  destruct (@max_loop_sign l' NegInfinity eq_refl Hl') as [A' B'].
  fold (Math_max l) in A, B. fold (Math_max l') in A', B'.
  destruct (leb_antisym (Math_max l) (Math_max l')) as [E | (_ & _ & Z & Z')].
  - apply Hhigh'. now apply Hsame.
  - apply Hhigh. now apply Hsame.
  - exact E.
  - destruct (isPosZero (Math_max l)) eqn:N.
    + destruct (A eq_refl) as [H | H]; [discriminate|].
      apply Hsame in H. specialize (B' (or_intror H)).
      destruct (Math_max l) as [[|]| | |], (Math_max l') as [[|]| | |];
        try discriminate; reflexivity.
    + destruct (isPosZero (Math_max l')) eqn:N'.
      * destruct (A' eq_refl) as [H | H]; [discriminate|].
        apply Hsame in H. specialize (B (or_intror H)).
        destruct (Math_max l) as [[|]| | |]; discriminate.
      * destruct (Math_max l) as [[|]| | |], (Math_max l') as [[|]| | |];
          try discriminate; reflexivity.
Qed.

(** With auto-scaling on, the axis domain depends only on which numbers
    occur under which of the requested keys on the points: the order of
    the keys, the order of the points and repeated points make no
    difference. *)
Theorem auto_scale_ignores_order (domain : option (number * number))
  (dataKeys dataKeys' : list string) (points points' : list ChartDataPoint.t) :
  (forall key, In key dataKeys <-> In key dataKeys') ->
  (forall point, In point points <-> In point points') ->
  yAxisDomain domain (Some true) dataKeys points
  = yAxisDomain domain (Some true) dataKeys' points'.
Proof.
  intros Hkeys Hpoints. rewrite !yAxisDomain_auto.
  assert (Hsame : forall v, In v (collectValues dataKeys points) <->
                            In v (collectValues dataKeys' points')).
  { intros v. rewrite !in_collectValues.
    split; intros (key & p & Hk & Hp & H); exists key, p;
      (split; [now apply Hkeys|]); (split; [now apply Hpoints|]); exact H. }
  pose proof (collectValues_not_nan dataKeys points) as Hn.
  pose proof (collectValues_not_nan dataKeys' points') as Hn'.
  destruct (collectValues dataKeys points) as [|v pool] eqn:E.
  - destruct (collectValues dataKeys' points') as [|v' pool'] eqn:E';
      [reflexivity|].
    exfalso. apply (proj2 (Hsame v')). now left.
  - destruct (collectValues dataKeys' points') as [|v' pool'] eqn:E'.
    + exfalso. apply (proj1 (Hsame v)). now left.
    + unfold paddedDomain.
      rewrite (@Math_min_ext (v :: pool) (v' :: pool')), 
              (@Math_max_ext (v :: pool) (v' :: pool')); auto; discriminate.
Qed.

Lemma auto_scale_ignores_order_witness :
  let a := chartPoint (fun s => s) (fun s => s) (Home.reading "t1" 10) in
  let b := chartPoint (fun s => s) (fun s => s) (Home.reading "t2" 30) in
  yAxisDomain None (Some true) ["ph"; "temp1"] [a; b]
  = yAxisDomain None (Some true) ["temp1"; "ph"] [b; a; b].
Proof.
  intros a b.
  apply (auto_scale_ignores_order None ["ph"; "temp1"] ["temp1"; "ph"]
           [a; b] [b; a; b]).
  - intros key. simpl. tauto.
  - intros point. simpl. tauto.
Defined.

(** *** From the rows to the pool *)

(** For a numeric channel, the pool of the auto-scale branch over the
    normalised rows is the column of the rows read in order, with the
    rows skipped where the column is null, missing or NaN; a 0 is pooled
    like any other number. *)
Theorem pool_is_the_column
  (toLocaleString toLocaleDateString : string -> string)
  (rows : list SensorData.t) (key : string) :
  In key numericKeys ->
  collectValues [key] (chartData toLocaleString toLocaleDateString rows)
  = flat_map (fun row =>
                match column row key with
                | Val n => if isNaN n then [] else [n]
                | Null | Missing => []
                end) rows.
Proof.
  intros Hkey. rewrite collectValues_flat_map. cbn [flat_map].
  rewrite app_nil_r. unfold chartData.
  induction rows as [|row rows IH]; [reflexivity|].
  cbn [map flat_map]. rewrite IH. f_equal.
  unfold pushValue. rewrite get_chartPoint_column by exact Hkey.
  destruct (column row key) as [| |n]; try reflexivity.
  simpl. destruct (isNaN n); reflexivity.
Qed.

Lemma pool_is_the_column_witness :
  collectValues ["ph"]
    (chartData (fun s => s) (fun s => s)
       [Home.reading "t1" 0; Home.reading "t2" 7])
  = [ofZ 0; ofZ 7].
Proof.
  rewrite (@pool_is_the_column (fun s => s) (fun s => s)
             [Home.reading "t1" 0; Home.reading "t2" 7] "ph").
  - reflexivity.
  - unfold numericKeys. simpl. tauto.
Defined.

End ChartsMore.

(** ** More on the latest-reading page *)

Module HomeMore.

Import Home Runs HomeFacts.

(** *** The two triggers are held together *)

Lemma step_keeps_handles (r : Runtime) (e : Event) :
  e <> Cleanup ->
  subscribed (step r e) = subscribed r /\ polling (step r e) = polling r.
Proof.
  intros He. destruct e as [[payload|]|a|]; simpl.
  - destruct (subscribed r) eqn:E; simpl; auto.
  - destruct (polling r) eqn:E; simpl; auto.
  - destruct (pending r) eqn:E; simpl; auto.
  - contradiction.
Qed.

Lemma run_handles (events : list Event) :
  forall r : Runtime,
    (~ In Cleanup events ->
     subscribed (run r events) = subscribed r /\
     polling (run r events) = polling r) /\
    (In Cleanup events ->
     subscribed (run r events) = false /\ polling (run r events) = false).
Proof.
  induction events as [|e events IH]; intros r; simpl.
  - split; [auto | contradiction].
  - destruct (IH (step r e)) as [Hout Hin]. split.
    + intros Hno.
      assert (He : e <> Cleanup) by (intros ->; apply Hno; now left).
      destruct (step_keeps_handles r He) as [Hs Hp].
      destruct Hout as [Hs' Hp']; [intros H; apply Hno; now right|].
      split; congruence.
    + intros [-> | H]; [|now apply Hin].
      apply run_keeps_released; reflexivity.
Qed.

(** In every state the page can reach, the subscription and the interval
    are held together or released together, and they are held exactly as
    long as the cleanup has not run: nothing else releases a trigger, and
    nothing brings one back. *)
Theorem triggers_live_until_cleanup (events : list Event) :
  subscribed (run mount events) = polling (run mount events) /\
  (subscribed (run mount events) = true <-> ~ In Cleanup events) /\
  (polling (run mount events) = false <-> In Cleanup events).
Proof.
  destruct (run_handles events mount) as [Hout Hin].
  assert (Hdec : In Cleanup events \/ ~ In Cleanup events).
  { clear Hout Hin. induction events as [|e events IH]; [right; intros []|].
    destruct e as [t|a|].
    - destruct IH as [H | H]; [left; now right|].
      right. intros [E | E]; [discriminate E | exact (H E)].
    - destruct IH as [H | H]; [left; now right|].
      right. intros [E | E]; [discriminate E | exact (H E)].
    - left. now left. }
  destruct Hdec as [Hc | Hc].
  - destruct (Hin Hc) as [Hs Hp]. rewrite Hs, Hp.
    split; [reflexivity|]. split; [|tauto].
    split; [discriminate | contradiction].
  - destruct (Hout Hc) as [Hs Hp]. rewrite Hs, Hp. simpl.
    split; [reflexivity|]. split; [tauto|].
    split; [discriminate | contradiction].
Qed.

Lemma triggers_live_until_cleanup_witness :
  polling (run mount [Fire Tick; Cleanup; Fire Tick]) = false.
Proof.
  apply (triggers_live_until_cleanup [Fire Tick; Cleanup; Fire Tick]).
  simpl. tauto.
Defined.

(** *** The loading flag without rejections *)

Lemma step_keeps_fetch_behind_loading (r : Runtime) (e : Event) :
  isRejection e = false ->
  (loading (view r) = true -> (0 < pending r)%nat) ->
  loading (view (step r e)) = true -> (0 < pending (step r e))%nat.
Proof.
  intros He Hinv. destruct r as [v s p n]. simpl in Hinv.
  destruct e as [[payload|]|[rows|]|]; simpl.
  - destruct s; simpl; exact Hinv.
  - destruct p; simpl; [lia | exact Hinv].
  - destruct n; simpl; [exact Hinv | discriminate].
  - discriminate He.
  - exact Hinv.
Qed.

(** As long as no awaited promise rejects, a raised loading flag always
    has a call of [fetchLatest] waiting behind it, whose answer will lower
    it: in every state reached from mount, before or after the cleanup,
    [loading = true] implies that a fetch is pending. *)
Theorem loading_has_a_fetch_behind_it (events : list Event) :
  forallb (fun e => negb (isRejection e)) events = true ->
  loading (view (run mount events)) = true ->
  (0 < pending (run mount events))%nat.
Proof.
  assert (G : forall evs r,
             forallb (fun e => negb (isRejection e)) evs = true ->
             (loading (view r) = true -> (0 < pending r)%nat) ->
             loading (view (run r evs)) = true -> (0 < pending (run r evs))%nat).
  { induction evs as [|e evs IH]; intros r Hall Hinv; simpl; [exact Hinv|].
    simpl in Hall. apply andb_true_iff in Hall. destruct Hall as [He Hall].
    apply negb_true_iff in He. apply IH; [exact Hall|].
    now apply step_keeps_fetch_behind_loading. }
  intros Hall. apply G; [exact Hall|]. intros _. simpl. lia.
Qed.

Lemma loading_has_a_fetch_behind_it_witness :
  (0 < pending (run mount [Settle (Fulfilled None); Fire Tick; Cleanup]))%nat.
Proof.
  apply (loading_has_a_fetch_behind_it
           [Settle (Fulfilled None); Fire Tick; Cleanup]); reflexivity.
Defined.

(** *** The last event decides *)

Lemma run_app (r : Runtime) (events more : list Event) :
  run r (events ++ more) = run (run r events) more.
Proof. unfold run. apply fold_left_app. Qed.

(** Whatever happened since mount, the event handled last decides what
    is held: a notification arriving before the cleanup leaves its payload
    as the reading, and the answer of a waiting [fetchLatest] leaves the
    first row of the answer -- or no reading when the answer has no rows or
    no data -- with the loading flag lowered; this also holds for an answer
    that arrives after the cleanup. *)
Theorem last_event_decides (events : list Event) (payload : SensorData.t)
  (rows : option (list SensorData.t)) :
  (~ In Cleanup events ->
   data (view (run mount (events ++ [Fire (Insert payload)]))) = Some payload) /\
  ((0 < pending (run mount events))%nat ->
   view (run mount (events ++ [Settle (Fulfilled rows)]))
   = {| data := firstOrNull rows; loading := false |}).
Proof.
  rewrite !run_app. split.
  - intros _. unfold run at 1. reflexivity.
  - intros Hpending. unfold run at 1. simpl.
    destruct (pending (run mount events)); [lia | reflexivity].
Qed.

Lemma last_event_decides_witness :
  view (run mount ([Fire (Insert (reading "2025-06-01T12:00:12Z" 7)); Cleanup]
                   ++ [Settle (Fulfilled (Some []))]))
  = {| data := None; loading := false |}.
Proof.
  apply (last_event_decides
           [Fire (Insert (reading "2025-06-01T12:00:12Z" 7)); Cleanup]
           (reading "2025-06-01T12:00:12Z" 7) (Some [])).
  simpl. lia.
Defined.

End HomeMore.

(** ** The reading panel *)

Module PanelFacts.

Import Num Panel.

(** The text shown for a numeric column of a reading. *)
Lemma format_read (toFixed : number -> nat -> string) (d : SensorData.t)
  (column : SensorData.t -> nullable number) :
  format toFixed (read (Some d) column)
  = match column d with
    | Val n => if isNaN n then dash else toFixed n 2
    | Null | Missing => dash
    end.
Proof. unfold read. destruct (column d); reflexivity. Qed.

(** The panel always has its twelve labelled values and at least one
    item in the list of faults. With no reading held, every value, the
    raw output and the single fault item are the dash. With a reading, a
    numeric value is the dash when its column is null, missing or NaN and
    [toFixed(2)] of the number otherwise (0 included); the raw output is
    the dash unless there are tokens, which are joined by ", "; and the
    faults are listed as they are unless there are none. *)
Theorem panel_contents (toFixed : number -> nat -> string)
  (data : option SensorData.t) :
  List.length (grid (panel toFixed data)) = 12%nat /\
  faultItems (panel toFixed data) <> [] /\
  (data = None ->
     Forall (fun lv => value lv = dash) (grid (panel toFixed data)) /\
     rawOutput (panel toFixed data) = dash /\
     faultItems (panel toFixed data) = [dash]) /\
  (forall d, data = Some d ->
     map value (grid (panel toFixed data))
     = SensorData.timestamp d
       :: map (fun column =>
                 match column d with
                 | Val n => if isNaN n then dash else toFixed n 2
                 | Null | Missing => dash
                 end)
              (map fst Charts.channels) /\
     ((forall tokens, SensorData.methan_raw d = Val tokens -> tokens = []) ->
      rawOutput (panel toFixed data) = dash) /\
     (forall token tokens, SensorData.methan_raw d = Val (token :: tokens) ->
        rawOutput (panel toFixed data) = String.concat ", " (token :: tokens)) /\
     (forall fault faults, SensorData.methane_faults d = Val (fault :: faults) ->
        faultItems (panel toFixed data) = fault :: faults)).
Proof.
  split; [reflexivity|]. split.
  - destruct data as [d|]; simpl; [|discriminate].
    destruct (SensorData.methane_faults d) as [| |[|f fs]]; discriminate.
  - split.
    + intros ->. split; [|split]; try reflexivity. repeat constructor.
    + intros d ->. split; [|split; [|split]].
      * unfold panel, grid. cbn [map value Charts.channels fst].
        rewrite !format_read. reflexivity.
      * intros Hnone. simpl.
        destruct (SensorData.methan_raw d) as [| |[|t ts]]; try reflexivity.
        discriminate (Hnone (t :: ts) eq_refl).
      * intros token tokens E. simpl. rewrite E. reflexivity.
      * intros fault faults E. simpl. rewrite E. reflexivity.
Qed.

Lemma panel_contents_witness :
  rawOutput (panel (fun _ _ => "0.00") None) = dash /\
  faultItems (panel (fun _ _ => "0.00") None) = [dash].
Proof.
  destruct (panel_contents (fun _ _ => "0.00") None) as (_ & _ & Hnone & _).
  destruct (Hnone eq_refl) as (_ & Hraw & Hfaults).
  split; [exact Hraw | exact Hfaults].
Defined.

End PanelFacts.
